(** * Venue store of the Bristol field-survey tracker (src/app.py)

    A shallow embedding of the data/query layer of [app.py]: the [Venue]
    table, the [Database] class (lookup, update, filter, statistics, CSV
    import), the haversine helper [calculate_distance] and the export block
    of the Export page.

    Python values are modelled by the tagged union [value]; a [Venue] object
    is the map from attribute (column) name to value that SQLAlchemy keeps
    for it, and a table is the list of its rows in rowid order.  Exceptions
    are threaded through the error monad [result].

    Floats of the store are IEEE binary64 values; the haversine helper is
    stated over the real numbers.  The clock is a function from the number
    of readings made so far to the time read.  Values assigned to a column
    are taken to be storable there, so that no flush and no commit fails. *)

From Stdlib Require Import ZArith Lia List Ascii String DecimalString.
From Stdlib Require Import Floats.PrimFloat Floats.SpecFloat Floats.FloatOps.
From Stdlib Require Import Reals Lra.
From stdpp Require Import base option list strings gmap.

Set Warnings "-inexact-float".

Local Open Scope Z_scope.

(* ====================================================================== *)
(** * Python values *)
(* ====================================================================== *)

(** [datetime.datetime]: a naive calendar timestamp. *)
Record datetime := mk_datetime {
  dt_year : Z; dt_month : Z; dt_day : Z;
  dt_hour : Z; dt_minute : Z; dt_second : Z; dt_microsecond : Z
}.

(** The Python values that reach the store: [None], [bool], [int], [float]
    (IEEE binary64, NaN included: pandas' marker of an empty cell), [str]
    and [datetime].  [VNone] also stands for SQL NULL. *)
Inductive value :=
| VNone
| VBool (b : bool)
| VInt (z : Z)
| VFloat (f : float)
| VStr (s : string)
| VDateTime (d : datetime).

Inductive exn :=
| ValueError | TypeError | OverflowError | ZeroDivisionError | AttributeError.

(** Outcome of an expression that may raise. *)
Inductive result (A : Type) :=
| Ok (a : A)
| Raise (e : exn).
Arguments Ok {A} a.
Arguments Raise {A} e.

Definition bind {A B} (m : result A) (k : A -> result B) : result B :=
  match m with
  | Ok a => k a
  | Raise e => Raise e
  end.

Notation "'let!' x ':=' m 'in' k" := (bind m (fun x => k))
  (at level 10, x name, m at level 100, k at level 200).

(** Evaluates the expressions of a list left to right; the first exception
    aborts the evaluation. *)
Fixpoint sequence {A} (ms : list (result A)) : result (list A) :=
  match ms with
  | [] => Ok []
  | m :: ms' => let! a := m in let! l := sequence ms' in Ok (a :: l)
  end.

(** Truth value of an object, as [if x:], [not x], [x and y], [x or y] and
    [bool(x)] take it. *)
Definition truthy (v : value) : bool :=
  match v with
  | VNone => false
  | VBool b => b
  | VInt z => negb (z =? 0)
  | VFloat f => negb (PrimFloat.eqb f PrimFloat.zero)
  | VStr s => negb (String.eqb s "")
  | VDateTime _ => true
  end.

(** [a or b] *)
Definition py_or (a b : value) : value := if truthy a then a else b.

(** [int -> float], rounding to nearest even; beyond the binary64 range the
    result is an infinity. *)
Definition float_of_Z (z : Z) : float :=
  SF2Prim (binary_normalize prec emax z 0 false).

(** Truncation of a finite float toward zero; [None] on NaN and infinities. *)
Definition Z_of_float (f : float) : option Z :=
  match Prim2SF f with
  | S754_zero _ => Some 0
  | S754_finite s m e =>
      let a := if 0 <=? e then Z.pos m * 2 ^ e else Z.pos m / 2 ^ (- e) in
      Some (if s then - a else a)
  | S754_infinity _ => None
  | S754_nan => None
  end.

(** [pd.notna(x)]: false on [None] and on NaN. *)
Definition pd_notna (v : value) : bool :=
  match v with
  | VNone => false
  | VFloat f => negb (PrimFloat.is_nan f)
  | _ => true
  end.

Section Conversions.
(** Python's parsers of numeric literals, [float(str)] and [int(str)];
    [None] is the [ValueError] of a string that is not a number. *)
Variable parse_float : string -> option float.
Variable parse_int : string -> option Z.

(** [float(x)] *)
Definition py_float (v : value) : result value :=
  match v with
  | VFloat f => Ok (VFloat f)
  | VInt z =>
      let f := float_of_Z z in
      if PrimFloat.is_infinity f then Raise OverflowError else Ok (VFloat f)
  | VBool b => Ok (VFloat (if b then PrimFloat.one else PrimFloat.zero))
  | VStr s =>
      match parse_float s with
      | Some f => Ok (VFloat f)
      | None => Raise ValueError
      end
  | VNone | VDateTime _ => Raise TypeError
  end.

(** [int(x)] *)
Definition py_int (v : value) : result value :=
  match v with
  | VInt z => Ok (VInt z)
  | VBool b => Ok (VInt (if b then 1 else 0))
  | VFloat f =>
      if PrimFloat.is_nan f then Raise ValueError
      else match Z_of_float f with
           | Some z => Ok (VInt z)
           | None => Raise OverflowError
           end
  | VStr s =>
      match parse_int s with
      | Some z => Ok (VInt z)
      | None => Raise ValueError
      end
  | VNone | VDateTime _ => Raise TypeError
  end.
End Conversions.

(** [bool(x)] *)
Definition py_bool (v : value) : value := VBool (truthy v).

(** [a / b] on two ints: true division, [ZeroDivisionError] on a zero
    divisor.  Both operands are counts of rows, far below 2^53, where the
    quotient of the converted operands is the correctly rounded quotient. *)
Definition py_truediv (a b : Z) : result float :=
  if b =? 0 then Raise ZeroDivisionError
  else Ok (PrimFloat.div (float_of_Z a) (float_of_Z b)).

(* ====================================================================== *)
(** * Formatting *)
(* ====================================================================== *)

Definition decimal (z : Z) : string := NilZero.string_of_int (Z.to_int z).

(** A field of [strftime] zero-padded to two digits ([%m %d %H %M %S]). *)
Definition pad2 (z : Z) : string :=
  if z <? 10 then ("0" +:+ decimal z)%string else decimal z.

(** [d.strftime('%Y-%m-%d %H:%M:%S')] (years of four digits). *)
Definition strftime_export (d : datetime) : string :=
  decimal (dt_year d) +:+ "-" +:+ pad2 (dt_month d) +:+ "-" +:+ pad2 (dt_day d)
  +:+ " " +:+ pad2 (dt_hour d) +:+ ":" +:+ pad2 (dt_minute d) +:+ ":"
  +:+ pad2 (dt_second d).

(** [d.strftime('%Y%m%d_%H%M%S')] *)
Definition strftime_filename (d : datetime) : string :=
  decimal (dt_year d) +:+ pad2 (dt_month d) +:+ pad2 (dt_day d) +:+ "_"
  +:+ pad2 (dt_hour d) +:+ pad2 (dt_minute d) +:+ pad2 (dt_second d).

Definition lower_ascii (c : ascii) : ascii :=
  let n := nat_of_ascii c in
  if ((65 <=? n) && (n <=? 90))%nat then ascii_of_nat (n + 32) else c.

(** [s.lower()] on ASCII text. *)
Fixpoint str_lower (s : string) : string :=
  match s with
  | EmptyString => EmptyString
  | String c s' => String (lower_ascii c) (str_lower s')
  end.

(** [s.replace(old, new)] for one-character [old] and [new]. *)
Fixpoint str_replace (old new : ascii) (s : string) : string :=
  match s with
  | EmptyString => EmptyString
  | String c s' =>
      String (if Ascii.eqb c old then new else c) (str_replace old new s')
  end.

(* ====================================================================== *)
(** * The venues table *)
(* ====================================================================== *)

(** A [Venue] object: attribute name to value.  An attribute that was never
    assigned reads as [None], which is also how a NULL column loads. *)
Abbreviation Venue := (gmap string value).

Definition getattr (v : Venue) (key : string) : value := default VNone (v !! key).

(** [setattr(venue, key, value)] *)
Definition setattr (v : Venue) (key : string) (x : value) : Venue := <[key := x]> v.

(** What the sqlite3 driver stores for a bound parameter: a NaN is stored as
    NULL, every other value as it is. *)
Definition sqlite_bind (x : value) : value :=
  match x with
  | VFloat f => if PrimFloat.is_nan f then VNone else x
  | _ => x
  end.

(** Column types of the declarative mapping. *)
Inductive column_type := Integer | String_ | Float | Boolean | DateTime | Text.

(** [default=] of a column: none, a scalar, or the callable
    [datetime.utcnow]. *)
Inductive column_default :=
| no_default
| scalar_default (x : value)
| utcnow_default.

Record column := Column {
  col_name : string;
  col_type : column_type;
  col_default : column_default
}.

(** [class Venue(Base)]: the columns of the [venues] table, in order. *)
Definition Venue_columns : list column :=
  [ Column "id" Integer no_default;
    (* Identity *)
    Column "google_place_id" String_ no_default;
    Column "google_name" String_ no_default;
    Column "name" String_ no_default;
    Column "osm_id" Float no_default;
    Column "osm_type" String_ no_default;
    (* Type *)
    Column "amenity" String_ no_default;
    Column "cuisine" String_ no_default;
    Column "search_type" String_ no_default;
    (* Contact *)
    Column "google_phone" String_ no_default;
    Column "google_phone_intl" String_ no_default;
    Column "phone" String_ no_default;
    Column "google_website" String_ no_default;
    Column "website" String_ no_default;
    (* Location *)
    Column "google_vicinity" String_ no_default;
    Column "address" String_ no_default;
    Column "housenumber" String_ no_default;
    Column "postcode" String_ no_default;
    Column "search_ward" String_ no_default;
    Column "search_postcode_sector" String_ no_default;
    Column "search_constituency" String_ no_default;
    (* Coordinates *)
    Column "google_lat" Float no_default;
    Column "google_lng" Float no_default;
    Column "latitude" Float no_default;
    Column "longitude" Float no_default;
    (* Ratings *)
    Column "google_rating" Float no_default;
    Column "google_user_ratings_total" Integer no_default;
    Column "google_price_level" Integer no_default;
    (* Status *)
    Column "business_status" String_ no_default;
    Column "validated" Boolean no_default;
    Column "data_source" String_ no_default;
    Column "is_chain" Boolean no_default;
    (* Additional *)
    Column "opening_hours" Text no_default;
    Column "google_opening_hours" Text no_default;
    Column "outdoor_seating" String_ no_default;
    Column "takeaway" String_ no_default;
    Column "delivery" String_ no_default;
    Column "wheelchair" String_ no_default;
    Column "google_types" Text no_default;
    Column "google_photo_reference" Text no_default;
    (* Survey fields *)
    Column "visited" Boolean (scalar_default (VBool false));
    Column "visit_date" DateTime no_default;
    Column "interest_status" String_ no_default;
    Column "is_priority" Boolean (scalar_default (VBool false));
    Column "notes" Text no_default;
    Column "created_at" DateTime utcnow_default;
    Column "updated_at" DateTime utcnow_default ].

Definition datetime_eqb (a b : datetime) : bool :=
  (dt_year a =? dt_year b) && (dt_month a =? dt_month b)
  && (dt_day a =? dt_day b) && (dt_hour a =? dt_hour b)
  && (dt_minute a =? dt_minute b) && (dt_second a =? dt_second b)
  && (dt_microsecond a =? dt_microsecond b).

(** Equality of two non-NULL stored values.  A column holds values of its
    declared type, so only values of one type are compared. *)
Definition val_eqb (a b : value) : bool :=
  match a, b with
  | VBool x, VBool y => Bool.eqb x y
  | VInt x, VInt y => x =? y
  | VFloat x, VFloat y => PrimFloat.eqb x y
  | VStr x, VStr y => String.eqb x y
  | VDateTime x, VDateTime y => datetime_eqb x y
  | _, _ => false
  end.

(** SQL [col = ?]: unknown ([None]) as soon as one side is NULL. *)
Definition sql_eq (col param : value) : option bool :=
  match col, param with
  | VNone, _ | _, VNone => None
  | _, _ => Some (val_eqb col param)
  end.

(** SQLAlchemy's [Venue.col == x]: [col IS NULL] when [x] is [None], and
    [col = ?] with [x] bound otherwise. *)
Definition column_eq (col x : value) : option bool :=
  match x with
  | VNone => Some (match col with VNone => true | _ => false end)
  | _ => sql_eq col (sqlite_bind x)
  end.

(** SQL [col >= ?] on the numeric storage classes. *)
Definition column_ge (col x : value) : option bool :=
  match col, sqlite_bind x with
  | VNone, _ | _, VNone => None
  | VFloat c, VFloat b => Some (PrimFloat.leb b c)
  | VInt c, VFloat b => Some (PrimFloat.leb b (float_of_Z c))
  | VFloat c, VInt b => Some (PrimFloat.leb (float_of_Z b) c)
  | VInt c, VInt b => Some (b <=? c)
  | _, _ => Some false
  end.

(** A WHERE clause keeps a row when its condition is true, not when it is
    false or unknown. *)
Definition sql_true (c : option bool) : bool :=
  match c with Some true => true | _ => false end.

(** [query.filter(cond)]: the rows that satisfy the condition, in the order
    of the query. *)
Definition query_filter (cond : Venue -> option bool) (q : list Venue) : list Venue :=
  List.filter (fun v => sql_true (cond v)) q.

(** [if cond: query = query.filter(c)] *)
Definition filter_if (cond : bool) (c : Venue -> option bool) (q : list Venue)
  : list Venue :=
  if cond then query_filter c q else q.

(** [query.first()] *)
Definition query_first (q : list Venue) : option Venue := head q.

(** [query.count()] *)
Definition query_count (q : list Venue) : Z := Z.of_nat (length q).

(** The session: the rows of [venues] in rowid order (pending rows included:
    the session flushes before every query) and the number of readings of
    the clock made so far. *)
Record Database := mk_Database {
  venues : list Venue;
  clock : nat
}.

(** Keyword arguments of [filter_venues]; [None] is an omitted keyword, so
    [Some None] is an explicit [None]. *)
Record filter_kwargs := mk_filter_kwargs {
  kw_ward : option (option string);
  kw_postcode_sector : option (option string);
  kw_amenity : option (option string);
  kw_cuisine : option (option string);
  kw_min_rating : option (option float);
  kw_visited : option (option bool);
  kw_interest_status : option (option string);
  kw_business_status : option (option string)
}.

(** The value of a keyword parameter: the argument, or the default of the
    signature when the keyword is omitted. *)
Definition kwarg {A} (dflt : A) (a : option A) : A :=
  match a with
  | Some x => x
  | None => dflt
  end.

Definition no_kwargs : filter_kwargs :=
  mk_filter_kwargs None None None None None None None None.

Definition with_business_status (kw : filter_kwargs) (x : option (option string))
  : filter_kwargs :=
  mk_filter_kwargs (kw_ward kw) (kw_postcode_sector kw) (kw_amenity kw)
    (kw_cuisine kw) (kw_min_rating kw) (kw_visited kw) (kw_interest_status kw) x.

Definition str_arg (a : option string) : value := from_option VStr VNone a.
Definition float_arg (a : option float) : value := from_option VFloat VNone a.
Definition bool_arg (a : option bool) : value := from_option VBool VNone a.

(** [x > 0] on a float *)
Definition positive (a : option float) : bool :=
  match a with
  | Some m => PrimFloat.ltb PrimFloat.zero m
  | None => false
  end.

(** [x and x != "All"] *)
Definition selected (a : option string) : bool :=
  truthy (str_arg a) && negb (val_eqb (str_arg a) (VStr "All")).

(** A row of the data frame ([pd.Series]): column name to cell. *)
Abbreviation Row := (gmap string value).

(** [row.get(key)]: the cell, or [None] when the frame has no such column. *)
Definition row_get (row : Row) (key : string) : value := default VNone (row !! key).

(** [conv(x) if pd.notna(x) else missing] *)
Definition if_notna (conv : value -> result value) (missing x : value) : result value :=
  if pd_notna x then conv x else Ok missing.

(** [Venue(key=value, ...)]: the object holds exactly the attributes it was given. *)
Definition Venue_new (kwargs : list (string * value)) : Venue := list_to_map kwargs.

(** Evaluation of keyword arguments, left to right. *)
Definition eval_kwargs (kwargs : list (string * result value))
  : result (list (string * value)) :=
  sequence (map (fun kv => let! x := kv.2 in Ok (kv.1, x)) kwargs).

(** [max(rowid) + 1]: the key SQLite gives a new row of a table whose
    primary key is a plain INTEGER PRIMARY KEY. *)
Definition next_id (rows : list Venue) : Z :=
  1 + foldr (fun v m => match getattr v "id" with VInt i => Z.max i m | _ => m end)
        0 rows.

(** At an INSERT the default of a column fires when the attribute was not
    assigned; a column without default is left NULL.  The state is the
    object and the number of readings of the clock, [utcnow] the clock. *)
Definition fire_default (utcnow : nat -> datetime) (st : Venue * nat) (c : column)
  : Venue * nat :=
  match st.1 !! col_name c with
  | Some _ => st
  | None =>
      match col_default c with
      | no_default => st
      | scalar_default x => (<[col_name c := x]> st.1, st.2)
      | utcnow_default =>
          (<[col_name c := VDateTime (utcnow st.2)]> st.1, S st.2)
      end
  end.

(** The first row on which [p] holds is replaced by [new]. *)
Fixpoint replace_first (p : Venue -> bool) (new : Venue) (l : list Venue) : list Venue :=
  match l with
  | [] => []
  | v :: l' => if p v then new :: l' else v :: replace_first p new l'
  end.


(** [session.query(Venue).filter(Venue.google_place_id == key).first()] *)
Definition find_by_place_id (db : Database) (key : value) : option Venue :=
  query_first
    (query_filter (fun v => column_eq (getattr v "google_place_id") key) (venues db)).

Record Statistics := mk_Statistics {
  total : Z;
  visited : Z;
  not_visited : Z;
  interested : Z;
  not_interested : Z;
  conversion_rate : value
}.

Inductive row_outcome :=
| Skipped
| Added (db' : Database).

Section Store.
(** [datetime.utcnow()]: the value of the n-th reading of the clock. *)
Variable utcnow : nat -> datetime.
Variable parse_float : string -> option float.
Variable parse_int : string -> option Z.

Definition get_all_venues (db : Database) : list Venue := venues db.

Definition get_venue_by_id (db : Database) (venue_id : Z) : option Venue :=
  query_first
    (query_filter (fun v => column_eq (getattr v "id") (VInt venue_id)) (venues db)).

(** [update_venue]: the returned object is the one the session holds after
    the commit, i.e. the row as stored.  The assigned values are taken to be
    storable in their columns, so that the commit succeeds. *)
Definition update_venue (db : Database) (venue_id : Z)
           (updates : list (string * value)) : Database * option Venue :=
  match get_venue_by_id db venue_id with
  | Some venue =>
      let venue := foldl (fun v kv => setattr v kv.1 kv.2) venue updates in
      let venue := setattr venue "updated_at" (VDateTime (utcnow (clock db))) in
      let stored := sqlite_bind <$> venue in
      (mk_Database
         (replace_first
            (fun v => sql_true (column_eq (getattr v "id") (VInt venue_id)))
            stored (venues db))
         (S (clock db)),
       Some stored)
  | None => (db, None)
  end.

(** The body of [filter_venues], every parameter bound. *)
Definition filter_venues_body (db : Database)
           (ward postcode_sector amenity cuisine : option string)
           (min_rating : option float) (visited : option bool)
           (interest_status business_status : option string) : list Venue :=
  let query := venues db in
  let query :=
    filter_if (truthy (str_arg business_status))
      (fun v => column_eq (getattr v "business_status") (str_arg business_status))
      query in
  let query :=
    filter_if (selected ward)
      (fun v => column_eq (getattr v "search_ward") (str_arg ward)) query in
  let query :=
    filter_if (selected postcode_sector)
      (fun v => column_eq (getattr v "search_postcode_sector")
                  (str_arg postcode_sector)) query in
  let query :=
    filter_if (selected amenity)
      (fun v => column_eq (getattr v "amenity") (str_arg amenity)) query in
  let query :=
    filter_if (selected cuisine)
      (fun v => column_eq (getattr v "cuisine") (str_arg cuisine)) query in
  let query :=
    filter_if (truthy (float_arg min_rating) && positive min_rating)
      (fun v => column_ge (getattr v "google_rating") (float_arg min_rating))
      query in
  let query :=
    filter_if (bool_decide (is_Some visited))
      (fun v => column_eq (getattr v "visited") (bool_arg visited)) query in
  let query :=
    filter_if (truthy (str_arg interest_status))
      (fun v => column_eq (getattr v "interest_status") (str_arg interest_status))
      query in
  query.

(** A call of [filter_venues]: omitted keywords take the defaults of the
    signature, [None] everywhere but [business_status='OPERATIONAL']. *)
Definition filter_venues (db : Database) (kw : filter_kwargs) : list Venue :=
  filter_venues_body db
    (kwarg None (kw_ward kw)) (kwarg None (kw_postcode_sector kw))
    (kwarg None (kw_amenity kw)) (kwarg None (kw_cuisine kw))
    (kwarg None (kw_min_rating kw)) (kwarg None (kw_visited kw))
    (kwarg None (kw_interest_status kw))
    (kwarg (Some "OPERATIONAL"%string) (kw_business_status kw)).

Definition get_statistics (db : Database) : result Statistics :=
  let total := query_count (venues db) in
  let visited :=
    query_count
      (query_filter (fun v => column_eq (getattr v "visited") (VBool true)) (venues db)) in
  let interested :=
    query_count
      (query_filter
         (fun v => column_eq (getattr v "interest_status") (VStr "interested"))
         (venues db)) in
  let not_interested :=
    query_count
      (query_filter
         (fun v => column_eq (getattr v "interest_status") (VStr "not_interested"))
         (venues db)) in
  let! rate :=
    (if 0 <? visited
     then let! q := py_truediv interested visited in
          Ok (VFloat (PrimFloat.mul q (float_of_Z 100)))
     else Ok (VInt 0)) in
  Ok (mk_Statistics total visited (total - visited) interested not_interested rate).

(** The keyword arguments of the [Venue(...)] call of [import_from_csv]. *)
Definition Venue_kwargs (row : Row) : list (string * result value) :=
  let copy key := (key, Ok (row_get row key)) in
  let number conv key := (key, if_notna conv VNone (row_get row key)) in
  let flag key :=
    (key, if_notna (fun x => Ok (py_bool x)) (VBool false) (row_get row key)) in
  [ copy "google_place_id"%string;
    copy "google_name"%string;
    copy "name"%string;
    number (py_float parse_float) "osm_id"%string;
    copy "osm_type"%string;
    copy "amenity"%string;
    copy "cuisine"%string;
    copy "search_type"%string;
    copy "google_phone"%string;
    copy "google_phone_intl"%string;
    copy "phone"%string;
    copy "google_website"%string;
    copy "website"%string;
    copy "google_vicinity"%string;
    copy "address"%string;
    copy "housenumber"%string;
    copy "postcode"%string;
    copy "search_ward"%string;
    copy "search_postcode_sector"%string;
    copy "search_constituency"%string;
    number (py_float parse_float) "google_lat"%string;
    number (py_float parse_float) "google_lng"%string;
    number (py_float parse_float) "latitude"%string;
    number (py_float parse_float) "longitude"%string;
    number (py_float parse_float) "google_rating"%string;
    number (py_int parse_int) "google_user_ratings_total"%string;
    number (py_int parse_int) "google_price_level"%string;
    copy "business_status"%string;
    flag "validated"%string;
    copy "data_source"%string;
    flag "is_chain"%string;
    copy "opening_hours"%string;
    copy "google_opening_hours"%string;
    copy "outdoor_seating"%string;
    copy "takeaway"%string;
    copy "delivery"%string;
    copy "wheelchair"%string;
    copy "google_types"%string;
    copy "google_photo_reference"%string ].

(** The INSERT of a new object: the row gets its key, the defaults of the
    columns that were not assigned fire and every value is bound.  Returns
    the stored row and the clock. *)
Definition insert_row (db : Database) (venue : Venue) : Venue * nat :=
  let venue := setattr venue "id" (VInt (next_id (venues db))) in
  let st := foldl (fire_default utcnow) (venue, clock db) Venue_columns in
  (sqlite_bind <$> st.1, st.2).

(** [session.add(venue)] followed by the flush that precedes the next
    query (or the final commit). *)
Definition session_add (db : Database) (venue : Venue) : Database :=
  let st := insert_row db venue in
  mk_Database (venues db ++ [st.1]) st.2.

(** The body of the [try] of one iteration of [import_from_csv]. *)
Definition import_row (db : Database) (row : Row) : result row_outcome :=
  let existing := find_by_place_id db (row_get row "google_place_id") in
  match existing with
  | Some _ => Ok Skipped
  | None =>
      let! kwargs := eval_kwargs (Venue_kwargs row) in
      Ok (Added (session_add db (Venue_new kwargs)))
  end.

(** The loop over [df.iterrows()], with its two counters. *)
Fixpoint import_loop (rows : list Row) (db : Database) (count errors : Z)
  : Database * (Z * Z) :=
  match rows with
  | [] => (db, (count, errors))
  | row :: rows' =>
      match import_row db row with
      | Ok Skipped => import_loop rows' db count errors
      | Ok (Added db') => import_loop rows' db' (count + 1) errors
      | Raise _ => import_loop rows' db count (errors + 1)
      end
  end.

Definition import_from_csv (db : Database) (df : list Row) : Database * (Z * Z) :=
  import_loop df db 0 0.
End Store.

(* ====================================================================== *)
(** * The export block of the Export page *)
(* ====================================================================== *)

(** The dict built for one venue by the list comprehension of [export_df]. *)
Definition export_record (v : Venue) : result (list (string * value)) :=
  let! visit_date :=
    (if truthy (getattr v "visit_date")
     then match getattr v "visit_date" with
          | VDateTime d => Ok (VStr (strftime_export d))
          | _ => Raise AttributeError
          end
     else Ok VNone) in
  Ok [ ("ID"%string, getattr v "id");
       ("Name"%string, getattr v "google_name");
       ("Type"%string, getattr v "amenity");
       ("Cuisine"%string, getattr v "cuisine");
       ("Ward"%string, getattr v "search_ward");
       ("Postcode"%string, getattr v "postcode");
       ("Postcode Sector"%string, getattr v "search_postcode_sector");
       ("Address"%string, py_or (getattr v "google_vicinity") (getattr v "address"));
       ("Phone"%string, py_or (getattr v "google_phone") (getattr v "phone"));
       ("Website"%string, py_or (getattr v "google_website") (getattr v "website"));
       ("Rating"%string, getattr v "google_rating");
       ("Total Reviews"%string, getattr v "google_user_ratings_total");
       ("Price Level"%string, getattr v "google_price_level");
       ("Latitude"%string, getattr v "google_lat");
       ("Longitude"%string, getattr v "google_lng");
       ("Business Status"%string, getattr v "business_status");
       ("Visited"%string, getattr v "visited");
       ("Visit Date"%string, visit_date);
       ("Interest Status"%string, getattr v "interest_status");
       ("Priority"%string, getattr v "is_priority");
       ("Notes"%string, getattr v "notes");
       ("Data Source"%string, getattr v "data_source") ].

(** The headers of an export, in order. *)
Definition export_columns : list string :=
  [ "ID"; "Name"; "Type"; "Cuisine"; "Ward"; "Postcode"; "Postcode Sector";
    "Address"; "Phone"; "Website"; "Rating"; "Total Reviews"; "Price Level";
    "Latitude"; "Longitude"; "Business Status"; "Visited"; "Visit Date";
    "Interest Status"; "Priority"; "Notes"; "Data Source" ]%string.

(** A data frame: its column labels and its rows.  [to_csv(index=False)]
    writes the labels as the header line and one line per row. *)
Record DataFrame := mk_DataFrame {
  df_columns : list string;
  df_data : list (list value)
}.

(** [pd.DataFrame(records)] on a list of dicts that share their keys: the
    columns are the keys of the records, so an empty list has none. *)
Definition pd_DataFrame (records : list (list (string * value))) : DataFrame :=
  mk_DataFrame
    (match records with [] => [] | r :: _ => r.*1 end)
    (map (fun r => r.*2) records).

(** [export_df]: the frame of the records of the venues, in their order. *)
Definition export_df (export_venues : list Venue) : result DataFrame :=
  let! records := sequence (map export_record export_venues) in
  Ok (pd_DataFrame records).

(** What the block puts on the page: the download button with the CSV of
    the frame and its file name, or the warning. *)
Inductive export_outcome :=
| download_button (csv_data : DataFrame) (file_name : string)
| warning (msg : string).

(** [if export_venues: ... else: st.warning(...)]; [now] is the
    [datetime.now()] of the file name. *)
Definition export_block (export_type : string) (now : datetime)
           (export_venues : list Venue) : result export_outcome :=
  match export_venues with
  | _ :: _ =>
      let! export_df := export_df export_venues in
      Ok (download_button export_df
            ("bristol_venues_" +:+ str_replace " " "_" (str_lower export_type)
             +:+ "_" +:+ strftime_filename now +:+ ".csv"))
  | [] => Ok (warning "No venues match the selected criteria")
  end.

(* ====================================================================== *)
(** * The haversine helper *)
(* ====================================================================== *)

(** [calculate_distance] works on binary64 floats through [math.sin],
    [math.cos], [math.asin] and [math.sqrt].  It is modelled here over the
    real numbers, the functions of the [math] module by the functions they
    approximate; an argument is [None] or a number. *)
Module Geo.
Local Open Scope R_scope.

(** Truth value of an argument: [None] and zero are false. *)
Definition truthy (x : option R) : bool :=
  match x with
  | None => false
  | Some r => if Req_dec_T r 0 then false else true
  end.

(** [all(xs)] *)
Definition all (xs : list (option R)) : bool := forallb truthy xs.

(** [math.radians(x)] *)
Definition radians (x : R) : R := x * (PI / 180).

(** The integer nearest to [x], the even one of the two at a tie. *)
Definition round_half_even (x : R) : Z :=
  let n := Int_part x in
  let d := x - IZR n in
  if Rlt_dec d (1 / 2) then n
  else if Rlt_dec (1 / 2) d then (n + 1)%Z
  else if Z.even n then n else (n + 1)%Z.

(** [round(x, 2)] *)
Definition round2 (x : R) : R := IZR (round_half_even (x * 100)) / 100.

Definition calculate_distance (lat1 lon1 lat2 lon2 : option R) : option R :=
  if negb (all [lat1; lon1; lat2; lon2]) then None
  else
    match lat1, lon1, lat2, lon2 with
    | Some lat1, Some lon1, Some lat2, Some lon2 =>
        let R := 3959 in
        let lat1 := radians lat1 in
        let lon1 := radians lon1 in
        let lat2 := radians lat2 in
        let lon2 := radians lon2 in
        let dlat := lat2 - lat1 in
        let dlon := lon2 - lon1 in
        let a := (sin (dlat / 2)) ^ 2
                 + cos lat1 * cos lat2 * (sin (dlon / 2)) ^ 2 in
        let c := 2 * asin (sqrt a) in
        Some (round2 (R * c))
    | _, _, _, _ => None
    end.
End Geo.

(* ====================================================================== *)
(** * Sample data *)
(* ====================================================================== *)

(** A clock that advances by one second per reading. *)
Definition sample_clock (n : nat) : datetime :=
  mk_datetime 2026 2 1 9 0 (Z.of_nat n) 0.

Definition no_float (s : string) : option float := None.
Definition no_int (s : string) : option Z := None.

Definition sample_venue (id : Z) (ward : string) (rating : float) (status : string)
  : Venue :=
  Venue_new [ ("id"%string, VInt id);
              ("search_ward"%string, VStr ward);
              ("google_rating"%string, VFloat rating);
              ("business_status"%string, VStr status);
              ("visited"%string, VBool false);
              ("is_priority"%string, VBool false) ].

Definition clifton_high : Venue := sample_venue 1 "Clifton" 4.5%float "OPERATIONAL".
Definition clifton_low : Venue := sample_venue 2 "Clifton" 3.0%float "OPERATIONAL".
Definition redland_closed : Venue := sample_venue 3 "Redland" 4.8%float "CLOSED".

Definition sample_db : Database :=
  mk_Database [clifton_high; clifton_low; redland_closed] 0.

Definition empty_db : Database := mk_Database [] 0.

(** The condition of the default business-status filter. *)
Definition operational (v : Venue) : option bool :=
  column_eq (getattr v "business_status") (VStr "OPERATIONAL").

(** The store in which every row has its [business_status] overwritten. *)
Definition overwrite_business_status (x : value) (db : Database) : Database :=
  mk_Database (map (fun v => setattr v "business_status" x) (venues db)) (clock db).

(** An update whose caller also tries to set [updated_at]. *)
Definition sample_updates : list (string * value) :=
  [ ("updated_at"%string, VDateTime (mk_datetime 1999 12 31 23 59 59 0));
    ("visited"%string, VBool true);
    ("notes"%string, VStr "back door only") ].

(** [record[key]] on a dict given by its items. *)
Fixpoint record_get (record : list (string * value)) (key : string) : option value :=
  match record with
  | [] => None
  | (k, x) :: record' => if String.eqb k key then Some x else record_get record' key
  end.

(** A surveyed venue that has both variants of address, phone and website. *)
Definition sample_surveyed : Venue :=
  Venue_new [ ("id"%string, VInt 7);
              ("google_name"%string, VStr "The Anchor");
              ("google_vicinity"%string, VStr "12 Park St, Bristol");
              ("address"%string, VStr "12 Park Street");
              ("google_phone"%string, VStr "0117 496 0000");
              ("phone"%string, VStr "+44 117 496 0000");
              ("google_website"%string, VStr "https://anchor.example/g");
              ("website"%string, VStr "https://anchor.example");
              ("visited"%string, VBool true);
              ("visit_date"%string, VDateTime (mk_datetime 2026 2 3 14 5 9 0)) ].

Definition sample_now : datetime := mk_datetime 2026 2 4 10 30 0 0.

(** The survey fields of a venue are at their defaults. *)
Definition survey_defaults (v : Venue) : Prop :=
  getattr v "visited" = VBool false
  /\ getattr v "visit_date" = VNone
  /\ getattr v "interest_status" = VNone
  /\ getattr v "is_priority" = VBool false
  /\ getattr v "notes" = VNone.


(** A row of a CSV file whose [google_place_id] cell is empty (pandas reads
    an empty cell as NaN). *)
Definition row_without_place_id : Row :=
  list_to_map [ ("google_place_id"%string, VFloat PrimFloat.nan);
                ("google_name"%string, VStr "Corner Cafe");
                ("search_ward"%string, VStr "Easton");
                ("google_rating"%string, VFloat 4.2%float) ].

(** A row of a CSV file that also has survey-looking columns. *)
Definition row_with_survey_columns : Row :=
  list_to_map [ ("google_place_id"%string, VStr "ChIJ-anchor");
                ("google_name"%string, VStr "The Anchor");
                ("google_rating"%string, VFloat 4.5%float);
                ("google_user_ratings_total"%string, VInt 212);
                ("validated"%string, VBool true);
                ("visited"%string, VBool true);
                ("interest_status"%string, VStr "interested");
                ("is_priority"%string, VBool true);
                ("notes"%string, VStr "spoke to the manager") ].

(** A row whose rating is not a number: its construction raises. *)
Definition row_with_bad_rating : Row :=
  list_to_map [ ("google_place_id"%string, VStr "ChIJ-bad");
                ("google_rating"%string, VStr "n/a") ].

(** The cell is not the NaN of an empty CSV cell. *)
Definition not_nan (x : value) : bool :=
  match x with
  | VFloat f => negb (PrimFloat.is_nan f)
  | _ => true
  end.

(** The [google_place_id] cell of the row is not empty. *)
Definition has_place_id (row : Row) : Prop :=
  not_nan (row_get row "google_place_id") = true.

(** A row that a further import passes over: its key is found in the
    store, or its construction raises. *)
Definition inert (parse_float : string -> option float)
           (parse_int : string -> option Z) (db : Database) (row : Row) : Prop :=
  is_Some (find_by_place_id db (row_get row "google_place_id"))
  \/ exists e, eval_kwargs (Venue_kwargs parse_float parse_int row) = Raise e.

(** A file with a repeated row and a row that cannot be built. *)
Definition sample_rows : list Row :=
  [row_with_survey_columns; row_with_bad_rating; row_with_survey_columns].

(* ====================================================================== *)
(** * Pin colours *)
(* ====================================================================== *)

(** [x == 'literal']: true on the string itself only. *)
Definition py_eq_str (x : value) (literal : string) : bool := val_eqb x (VStr literal).

Definition get_pin_color (venue : Venue) : string :=
  if negb (truthy (getattr venue "visited")) then "red"
  else if py_eq_str (getattr venue "interest_status") "interested" then "green"
  else if py_eq_str (getattr venue "interest_status") "not_interested" then "gray"
  else "orange".

(** The argument [a'] of a call is [a] or is left out. *)
Definition relaxes {A} (a' a : option A) : Prop := a' = None \/ a' = a.

(** A store with surveyed venues: a hot lead, a venue that declined, a
    venue visited without outcome and closed, and an unvisited one. *)
Definition surveyed_venue (id : Z) (ward status : string) (visited : bool)
           (interest : value) : Venue :=
  Venue_new [ ("id"%string, VInt id);
              ("google_place_id"%string, VStr ("ChIJ-" +:+ decimal id));
              ("search_ward"%string, VStr ward);
              ("business_status"%string, VStr status);
              ("visited"%string, VBool visited);
              ("interest_status"%string, interest);
              ("is_priority"%string, VBool false) ].

Definition surveyed_db : Database :=
  mk_Database
    [ surveyed_venue 1 "Clifton" "OPERATIONAL" true (VStr "interested");
      surveyed_venue 2 "Clifton" "OPERATIONAL" true (VStr "not_interested");
      surveyed_venue 3 "Redland" "CLOSED_TEMPORARILY" true VNone;
      surveyed_venue 4 "Easton" "OPERATIONAL" false VNone ]
    0.

(* ====================================================================== *)
(** * Survey actions of the pages *)
(* ====================================================================== *)

(** The primary keys of the rows, in table order. *)
Definition primary_keys (rows : list Venue) : list value :=
  map (fun v => getattr v "id") rows.

(** What SQLite guarantees of an INTEGER PRIMARY KEY: every row has an
    integer key and no two rows share one. *)
Definition well_keyed (rows : list Venue) : Prop :=
  exists ids : list Z, primary_keys rows = map VInt ids /\ NoDup ids.

(** The dict passed by the Save button of "Mark as Visited". *)
Definition visited_updates (now : datetime) (interest_choice notes : string)
  : list (string * value) :=
  [ ("visited"%string, VBool true);
    ("visit_date"%string, VDateTime now);
    ("interest_status"%string,
     VStr (str_replace " " "_" (str_lower interest_choice)));
    ("notes"%string, VStr notes) ].

(** The dict passed by "Reset All Survey Data" for every venue. *)
Definition reset_updates : list (string * value) :=
  [ ("visited"%string, VBool false);
    ("visit_date"%string, VNone);
    ("interest_status"%string, VNone);
    ("is_priority"%string, VBool false);
    ("notes"%string, VNone) ].

Section Actions.
Variable utcnow : nat -> datetime.

(** Save of "Mark as Visited": [now] is the [datetime.now()] of the click,
    [interest_choice] the label chosen on the radio. *)
Definition mark_as_visited (db : Database) (venue_id : Z) (now : datetime)
           (interest_choice notes : string) : Database * option Venue :=
  update_venue utcnow db venue_id (visited_updates now interest_choice notes).

(** "Reset All Survey Data": [for venue in db.get_all_venues():
    db.update_venue(venue.id, {...})].  The key of a loaded row is an
    integer. *)
Definition reset_survey_data (db : Database) : Database :=
  foldl (fun db' venue =>
           match getattr venue "id" with
           | VInt venue_id => (update_venue utcnow db' venue_id reset_updates).1
           | _ => db'
           end)
        db (get_all_venues db).
End Actions.

(** The stored record after an update of a found venue. *)
Definition stored_after (utcnow : nat -> datetime) (db : Database) (venue : Venue)
           (updates : list (string * value)) : Venue :=
  sqlite_bind <$>
    setattr (foldl (fun v kv => setattr v kv.1 kv.2) venue updates) "updated_at"
      (VDateTime (utcnow (clock db))).

(** The dict passed by the Update button of "Edit Venue Status". *)
Definition edit_updates (new_interest new_notes : string) : list (string * value) :=
  [ ("interest_status"%string,
     VStr (str_replace " " "_" (str_lower new_interest)));
    ("notes"%string, VStr new_notes) ].

(** Update of "Edit Venue Status". *)
Definition edit_status (utcnow : nat -> datetime) (db : Database) (venue_id : Z)
           (new_interest new_notes : string) : Database * option Venue :=
  update_venue utcnow db venue_id (edit_updates new_interest new_notes).

(** The interest status and the pin colour that go with a label of the
    radio ["Interested", "Not Interested"]. *)
Definition interest_of_choice (choice : string) : string :=
  if String.eqb choice "Interested" then "interested" else "not_interested".

Definition pin_of_choice (choice : string) : string :=
  if String.eqb choice "Interested" then "green" else "gray".

(** The identity keys of the rows that have one, in table order. *)
Definition place_ids (rows : list Venue) : list string :=
  omap (fun v => match getattr v "google_place_id" with
                 | VStr s => Some s
                 | _ => None
                 end) rows.

(** The attributes outside [keys] hold the same stored values in [v] and
    [v']. *)
Definition same_outside (keys : list string) (v v' : Venue) : Prop :=
  forall k, ~ In k keys -> sqlite_bind (getattr v' k) = sqlite_bind (getattr v k).

(** The attributes a reset may change. *)
Definition reset_keys : list string :=
  [ "visited"; "visit_date"; "interest_status"; "is_priority"; "notes";
    "updated_at" ]%string.

(** What the reset loop has done to a row once the venues [todo] have been
    processed. *)
Definition reset_relation (todo : list Venue) (v v' : Venue) : Prop :=
  getattr v' "id" = getattr v "id"
  /\ same_outside reset_keys v v'
  /\ ((exists w i, In w todo /\ getattr w "id" = VInt i /\ getattr v "id" = VInt i) ->
      survey_defaults v')
  /\ (survey_defaults v -> survey_defaults v').






(* ====================================================================== *)
(** * Ward statistics *)
(* ====================================================================== *)

(** A row of the result of [get_ward_statistics]. *)
Record WardStatistics := mk_WardStatistics {
  ws_ward : value;
  ws_total : Z;
  ws_visited : Z;
  ws_interested : Z;
  ws_not_interested : Z
}.

(** GROUP BY puts two keys in one group when they are equal, or both NULL. *)
Definition group_eqb (a b : value) : bool :=
  match a, b with
  | VNone, VNone => true
  | _, _ => val_eqb a b
  end.

(** The distinct keys of a column, each at its first occurrence. *)
Fixpoint group_keys (keys : list value) : list value :=
  match keys with
  | [] => []
  | k :: keys' => k :: List.filter (fun k' => negb (group_eqb k k')) (group_keys keys')
  end.

(** The sum of an integer expression over the rows of a group. *)
Definition sum_over (f : Venue -> Z) (group : list Venue) : Z :=
  foldr (fun v acc => f v + acc) 0 group.

(** [func.sum(case((cond, 1), else_=0))] *)
Definition sum_case (cond : Venue -> option bool) (group : list Venue) : Z :=
  sum_over (fun v => if sql_true (cond v) then 1 else 0) group.

(** [func.count(col)]: the rows of the group where the column is not NULL. *)
Definition count_column (col : string) (group : list Venue) : Z :=
  sum_over (fun v => match getattr v col with VNone => 0 | _ => 1 end) group.

(** The rows of one ward. *)
Definition ward_group (rows : list Venue) (ward : value) : list Venue :=
  List.filter (fun v => group_eqb (getattr v "search_ward") ward) rows.

Definition ward_statistics_row (rows : list Venue) (ward : value) : WardStatistics :=
  let group := ward_group rows ward in
  mk_WardStatistics ward
    (count_column "id" group)
    (sum_case (fun v => column_eq (getattr v "visited") (VBool true)) group)
    (sum_case (fun v => column_eq (getattr v "interest_status") (VStr "interested"))
       group)
    (sum_case (fun v => column_eq (getattr v "interest_status")
                          (VStr "not_interested")) group).

(** The SELECT of [get_ward_statistics] before its ORDER BY. *)
Definition grouped_by_ward (db : Database) : list WardStatistics :=
  map (ward_statistics_row (venues db))
      (group_keys (map (fun v => getattr v "search_ward") (venues db))).

(** [get_ward_statistics]: [order_by] is the ORDER BY count DESC of the
    database, which leaves the order of wards of equal count open. *)
Definition get_ward_statistics
           (order_by : list WardStatistics -> list WardStatistics)
           (db : Database) : list WardStatistics :=
  order_by (grouped_by_ward db).

(** An ORDER BY count DESC: insertion of a row before the first row of
    smaller count. *)
Fixpoint insert_by_total (r : WardStatistics) (l : list WardStatistics)
  : list WardStatistics :=
  match l with
  | [] => [r]
  | r' :: l' => if ws_total r' <? ws_total r then r :: l
                else r' :: insert_by_total r l'
  end.

Definition order_by_total_desc (l : list WardStatistics) : list WardStatistics :=
  foldr insert_by_total [] l.

(** The sum of a column of the result. *)
Definition column_sum (f : WardStatistics -> Z) (l : list WardStatistics) : Z :=
  foldr (fun r acc => f r + acc) 0 l.

(** The [search_ward] column holds strings and NULLs. *)
Definition ward_typed (x : value) : Prop := x = VNone \/ exists s, x = VStr s.

(** The counts of a row of the ward statistics are consistent. *)
Definition ward_row_consistent (r : WardStatistics) : Prop :=
  1 <= ws_total r
  /\ 0 <= ws_visited r <= ws_total r
  /\ 0 <= ws_interested r
  /\ 0 <= ws_not_interested r
  /\ ws_interested r + ws_not_interested r <= ws_total r.



(* ====================================================================== *)
(** * The selection of the Export page *)
(* ====================================================================== *)

(** [x if x != "All" else None] *)
Definition unless_all (x : string) : option string :=
  if negb (String.eqb x "All") then Some x else None.

(** The [export_venues] of the Export page for an export type;
    [custom_ward] and [custom_amenity] are the two select boxes of "Custom
    Filter". *)
Definition export_selection (db : Database)
           (export_type custom_ward custom_amenity : string) : list Venue :=
  if String.eqb export_type "All Venues" then get_all_venues db
  else if String.eqb export_type "Hot Leads (Interested Only)" then
    filter_venues db
      (mk_filter_kwargs None None None None None None
         (Some (Some "interested"%string)) None)
  else if String.eqb export_type "Not Interested" then
    filter_venues db
      (mk_filter_kwargs None None None None None None
         (Some (Some "not_interested"%string)) None)
  else if String.eqb export_type "Not Visited" then
    filter_venues db
      (mk_filter_kwargs None None None None None (Some (Some false)) None None)
  else if String.eqb export_type "Visited (All)" then
    filter_venues db
      (mk_filter_kwargs None None None None None (Some (Some true)) None None)
  else
    filter_venues db
      (mk_filter_kwargs (Some (unless_all custom_ward)) None
         (Some (unless_all custom_amenity)) None None None None None).

(* ====================================================================== *)
(** * The Map View page *)
(* ====================================================================== *)

(** [visited_filter] and [interest_filter] for a choice of the "Survey
    Status" select box. *)
Definition status_filters (filter_status : string) : option bool * option string :=
  if String.eqb filter_status "Not Visited" then (Some false, None)
  else if String.eqb filter_status "Visited" then (Some true, None)
  else if String.eqb filter_status "Interested" then (None, Some "interested"%string)
  else if String.eqb filter_status "Not Interested"
       then (None, Some "not_interested"%string)
  else (None, None).

(** The [filtered_venues] of the Map View page. *)
Definition map_filtered_venues (db : Database)
           (filter_ward filter_postcode filter_amenity filter_cuisine : string)
           (filter_rating : float) (filter_status : string) (show_closed : bool)
  : list Venue :=
  let visited_filter := (status_filters filter_status).1 in
  let interest_filter := (status_filters filter_status).2 in
  filter_venues db
    (mk_filter_kwargs (Some (Some filter_ward)) (Some (Some filter_postcode))
       (Some (Some filter_amenity)) (Some (Some filter_cuisine))
       (Some (Some filter_rating)) (Some visited_filter) (Some interest_filter)
       (Some (if show_closed then None else Some "OPERATIONAL"%string))).

(** [sum(1 for v in venues if p(v))] *)
Definition count_if (p : Venue -> bool) (l : list Venue) : Z :=
  Z.of_nat (length (List.filter p l)).

(** The three counters under the map. *)
Definition visited_count (filtered_venues : list Venue) : Z :=
  count_if (fun v => truthy (getattr v "visited")) filtered_venues.

Definition interested_count (filtered_venues : list Venue) : Z :=
  count_if (fun v => py_eq_str (getattr v "interest_status") "interested")
    filtered_venues.

Definition not_visited_count (filtered_venues : list Venue) : Z :=
  Z.of_nat (length filtered_venues) - visited_count filtered_venues.

(* ====================================================================== *)
(** * Facts about queries *)
(* ====================================================================== *)

Lemma query_filter_comm (c1 c2 : Venue -> option bool) (q : list Venue) :
  query_filter c1 (query_filter c2 q) = query_filter c2 (query_filter c1 q).
Proof.
  unfold query_filter. induction q as [|v q IH]; [reflexivity|].
  cbn. destruct (sql_true (c2 v)) eqn:E2, (sql_true (c1 v)) eqn:E1; cbn;
    rewrite ?E1, ?E2, IH; reflexivity.
Qed.

(** An optional stage of a query commutes with a filter applied before it. *)
Lemma filter_if_comm (b : bool) (c c0 : Venue -> option bool) (q : list Venue) :
  filter_if b c (query_filter c0 q) = query_filter c0 (filter_if b c q).
Proof. destruct b; [apply query_filter_comm | reflexivity]. Qed.

Lemma query_filter_Forall (c : Venue -> option bool) (q : list Venue) :
  Forall (fun v => c v = Some true) (query_filter c q).
Proof.
  unfold query_filter. apply Forall_forall. intros v Hv.
  apply list_elem_of_In, filter_In in Hv. destruct Hv as [_ Hv].
  destruct (c v) as [[|]|]; [reflexivity | discriminate | discriminate].
Qed.

Lemma column_eq_str (col : value) (s : string) :
  column_eq col (VStr s) = Some true -> col = VStr s.
Proof.
  destruct col; cbn; try discriminate.
  intros H. injection H as H. apply String.eqb_eq in H. congruence.
Qed.

(** A filter that does not read an attribute selects the same rows whatever
    that attribute holds. *)
Lemma query_filter_map (f : Venue -> Venue) (c : Venue -> option bool) (q : list Venue) :
  (forall v, c (f v) = c v) ->
  query_filter c (map f q) = map f (query_filter c q).
Proof.
  intros Hc. unfold query_filter. induction q as [|v q IH]; [reflexivity|].
  cbn. rewrite Hc. destruct (sql_true (c v)); cbn; rewrite IH; reflexivity.
Qed.

Lemma filter_if_map (b : bool) (f : Venue -> Venue) (c : Venue -> option bool)
      (q : list Venue) :
  (forall v, c (f v) = c v) ->
  filter_if b c (map f q) = map f (filter_if b c q).
Proof. intros Hc. destruct b; [by apply query_filter_map | reflexivity]. Qed.

Lemma getattr_setattr_ne (v : Venue) (k k' : string) (x : value) :
  k <> k' -> getattr (setattr v k x) k' = getattr v k'.
Proof. intros Hne. unfold getattr, setattr. by rewrite lookup_insert_ne. Qed.

Lemma getattr_setattr_eq (v : Venue) (k : string) (x : value) :
  getattr (setattr v k x) k = x.
Proof. unfold getattr, setattr. by rewrite lookup_insert_eq. Qed.

(* ====================================================================== *)
(** * filter_venues *)
(* ====================================================================== *)

(** C1.  On a store of exactly three venues, the first rated 4.5 in Clifton
    and the second rated 3.0 in Clifton, both OPERATIONAL, the third rated
    4.8 in Redland and CLOSED, [filter_venues(ward='Clifton', min_rating=4.0)]
    returns exactly the first venue and [filter_venues()] returns exactly the
    first two. *)
Theorem filter_venues_three_venues (v1 v2 v3 : Venue) (n : nat) :
  getattr v1 "google_rating" = VFloat 4.5%float ->
  getattr v1 "search_ward" = VStr "Clifton" ->
  getattr v1 "business_status" = VStr "OPERATIONAL" ->
  getattr v2 "google_rating" = VFloat 3.0%float ->
  getattr v2 "search_ward" = VStr "Clifton" ->
  getattr v2 "business_status" = VStr "OPERATIONAL" ->
  getattr v3 "google_rating" = VFloat 4.8%float ->
  getattr v3 "search_ward" = VStr "Redland" ->
  getattr v3 "business_status" = VStr "CLOSED" ->
  let db := mk_Database [v1; v2; v3] n in
  filter_venues db
    (mk_filter_kwargs (Some (Some "Clifton"%string)) None None None
       (Some (Some 4.0%float)) None None None) = [v1]
  /\ filter_venues db no_kwargs = [v1; v2].
Proof.
  intros R1 W1 B1 R2 W2 B2 R3 W3 B3 db.
  unfold filter_venues, filter_venues_body, filter_if, query_filter, db;
    cbn -[getattr].
  rewrite B1, B2, B3. cbn -[getattr].
  rewrite W1, W2. cbn -[getattr].
  rewrite R1, R2. split; reflexivity.
Qed.

Lemma filter_venues_three_venues_witness :
  filter_venues sample_db
    (mk_filter_kwargs (Some (Some "Clifton"%string)) None None None
       (Some (Some 4.0%float)) None None None) = [clifton_high]
  /\ filter_venues sample_db no_kwargs = [clifton_high; clifton_low].
Proof.
  apply (filter_venues_three_venues clifton_high clifton_low redland_closed 0);
    reflexivity.
Defined.

Lemma filter_venues_default_restricts (db : Database) (kw : filter_kwargs) :
  filter_venues db (with_business_status kw None)
  = query_filter operational (filter_venues db (with_business_status kw (Some None))).
Proof.
  unfold filter_venues, filter_venues_body.
  cbn [with_business_status kw_business_status kw_ward kw_postcode_sector
       kw_amenity kw_cuisine kw_min_rating kw_visited kw_interest_status kwarg].
  change (filter_if (truthy (str_arg (Some "OPERATIONAL"%string))) ?c ?q)
    with (query_filter c q).
  change (filter_if (truthy (str_arg None)) ?c ?q) with q.
  rewrite !filter_if_comm. reflexivity.
Qed.

Lemma filter_venues_explicit_none_blind (db : Database) (kw : filter_kwargs) (x : value) :
  filter_venues (overwrite_business_status x db) (with_business_status kw (Some None))
  = map (fun v => setattr v "business_status" x)
      (filter_venues db (with_business_status kw (Some None))).
Proof.
  unfold filter_venues, filter_venues_body, overwrite_business_status.
  cbn [with_business_status kw_business_status kw_ward kw_postcode_sector
       kw_amenity kw_cuisine kw_min_rating kw_visited kw_interest_status kwarg
       venues].
  change (filter_if (truthy (str_arg None)) ?c ?q) with q.
  rewrite !filter_if_map
    by (intros v; cbv beta; rewrite getattr_setattr_ne by discriminate;
        reflexivity).
  reflexivity.
Qed.

(** C2.  [filter_venues] is tri-state on the business status.  With the
    keyword omitted, every returned venue has [business_status] equal to
    'OPERATIONAL'.  With an explicit [None] (or the empty string) no
    business-status constraint applies: the selection is the same whatever
    the rows hold in [business_status], and with no other criterion it is
    the whole table; the default call returns the OPERATIONAL rows of the
    explicit-None call.  The two calls differ on some store. *)
Theorem filter_venues_business_status_tristate :
  (forall db kw,
      Forall (fun v => getattr v "business_status" = VStr "OPERATIONAL")
        (filter_venues db (with_business_status kw None)))
  /\ (forall db kw x,
        filter_venues (overwrite_business_status x db)
          (with_business_status kw (Some None))
        = map (fun v => setattr v "business_status" x)
            (filter_venues db (with_business_status kw (Some None))))
  /\ (forall db,
        filter_venues db (with_business_status no_kwargs (Some None)) = venues db)
  /\ (forall db kw,
        filter_venues db (with_business_status kw (Some (Some ""%string)))
        = filter_venues db (with_business_status kw (Some None)))
  /\ (forall db kw,
        filter_venues db (with_business_status kw None)
        = query_filter operational
            (filter_venues db (with_business_status kw (Some None))))
  /\ (exists db,
        filter_venues db (with_business_status no_kwargs None)
        <> filter_venues db (with_business_status no_kwargs (Some None))).
Proof.
  refine (conj _ (conj _ (conj _ (conj _ (conj _ _))))).
  - intros db kw. rewrite filter_venues_default_restricts.
    eapply Forall_impl; [apply query_filter_Forall|].
    intros v Hv. by apply column_eq_str.
  - apply filter_venues_explicit_none_blind.
  - intros db. reflexivity.
  - intros db kw. reflexivity.
  - apply filter_venues_default_restricts.
  - exists sample_db. intros H. apply (f_equal length) in H.
    vm_compute in H. discriminate.
Qed.

(* ====================================================================== *)
(** * update_venue *)
(* ====================================================================== *)

Lemma query_filter_nil (c : Venue -> option bool) (q : list Venue) :
  Forall (fun v => c v <> Some true) q -> query_filter c q = [].
Proof.
  unfold query_filter. induction 1 as [|v q Hv _ IH]; [reflexivity|].
  cbn. rewrite IH. destruct (c v) as [[|]|]; [congruence | reflexivity | reflexivity].
Qed.

Lemma column_eq_int (col : value) (i : Z) :
  column_eq col (VInt i) = Some true -> col = VInt i.
Proof.
  destruct col; cbn; try discriminate.
  intros H. injection H as H. apply Z.eqb_eq in H. congruence.
Qed.

Lemma replace_first_In (c : Venue -> option bool) (new old : Venue) (q : list Venue) :
  query_first (query_filter c q) = Some old ->
  In new (replace_first (fun v => sql_true (c v)) new q).
Proof.
  unfold query_first, query_filter. induction q as [|v q IH]; [discriminate|].
  cbn. destruct (sql_true (c v)); cbn; [left; reflexivity | right; auto].
Qed.

Lemma replace_first_length (p : Venue -> bool) (new : Venue) (q : list Venue) :
  length (replace_first p new q) = length q.
Proof.
  induction q as [|v q IH]; [reflexivity|].
  cbn. destruct (p v); cbn; [reflexivity | by rewrite IH].
Qed.

(** C4.  For an id that no record of the store carries, [update_venue]
    returns [None] (it cannot raise) and the store is left exactly as it
    was: no attribute is written and the clock is not even read. *)
Theorem update_venue_not_found (utcnow : nat -> datetime) (db : Database)
        (venue_id : Z) (updates : list (string * value)) :
  Forall (fun v => getattr v "id" <> VInt venue_id) (venues db) ->
  update_venue utcnow db venue_id updates = (db, None).
Proof.
  intros Hid. unfold update_venue, get_venue_by_id.
  rewrite query_filter_nil; [reflexivity|].
  eapply Forall_impl; [exact Hid|].
  intros v Hv Hc. apply Hv. by apply column_eq_int.
Qed.

Lemma update_venue_not_found_witness :
  update_venue sample_clock empty_db 9999 sample_updates = (empty_db, None).
Proof.
  apply (update_venue_not_found sample_clock empty_db 9999 sample_updates).
  cbn. apply Forall_nil. exact I.
Defined.

(** C10.  For an id the store holds, [update_venue] returns the stored
    record, and its [updated_at] is the reading of the clock made by this
    update whatever the [updates] dict contains, an 'updated_at' key
    included: the assignments of the caller are applied first and
    [updated_at] is overwritten after them. *)
Theorem update_venue_overwrites_updated_at (utcnow : nat -> datetime)
        (db : Database) (venue_id : Z) (updates : list (string * value))
        (venue : Venue) :
  get_venue_by_id db venue_id = Some venue ->
  exists stored,
    (update_venue utcnow db venue_id updates).2 = Some stored
    /\ getattr stored "updated_at" = VDateTime (utcnow (clock db))
    /\ In stored (venues (update_venue utcnow db venue_id updates).1)
    /\ length (venues (update_venue utcnow db venue_id updates).1)
       = length (venues db).
Proof.
  intros Hget. unfold update_venue. rewrite Hget. cbn [fst snd venues].
  eexists. split; [reflexivity|]. split; [|split].
  - unfold getattr, setattr. rewrite lookup_fmap, lookup_insert_eq. reflexivity.
  - eapply replace_first_In with (c := fun v => column_eq (getattr v "id") (VInt venue_id)).
    exact Hget.
  - apply replace_first_length.
Qed.

Lemma update_venue_overwrites_updated_at_witness :
  exists stored,
    (update_venue sample_clock sample_db 1 sample_updates).2 = Some stored
    /\ getattr stored "updated_at" = VDateTime (sample_clock (clock sample_db))
    /\ In stored (venues (update_venue sample_clock sample_db 1 sample_updates).1)
    /\ length (venues (update_venue sample_clock sample_db 1 sample_updates).1)
       = length (venues sample_db).
Proof.
  apply (update_venue_overwrites_updated_at sample_clock sample_db 1
           sample_updates clifton_high).
  reflexivity.
Defined.

(* ====================================================================== *)
(** * get_statistics *)
(* ====================================================================== *)

(** C8.  [get_statistics] always returns: the division is evaluated only
    under the guard [visited > 0], so no [ZeroDivisionError] (nor any other
    exception) can occur.  The conversion rate is
    [interested / visited * 100] when [visited > 0] and the integer 0 when
    [visited = 0]; [visited] is a count, never negative. *)
Theorem get_statistics_conversion_rate (db : Database) :
  exists st,
    get_statistics db = Ok st
    /\ 0 <= visited st
    /\ conversion_rate st =
       (if 0 <? visited st
        then VFloat (PrimFloat.mul
                       (PrimFloat.div (float_of_Z (interested st))
                          (float_of_Z (visited st)))
                       (float_of_Z 100))
        else VInt 0)
    /\ (forall e, get_statistics db <> Raise e).
Proof.
  unfold get_statistics.
  set (n := query_count (query_filter _ (venues db))).
  assert (Hn : 0 <= n) by (unfold n, query_count; lia).
  destruct (0 <? n) eqn:Hpos.
  - apply Z.ltb_lt in Hpos. unfold py_truediv.
    destruct (n =? 0) eqn:Hz; [apply Z.eqb_eq in Hz; lia|].
    cbn. eexists. split; [reflexivity|]. cbn.
    split; [exact Hn|]. split; [|discriminate].
    apply Z.ltb_lt in Hpos. rewrite Hpos. reflexivity.
  - cbn. eexists. split; [reflexivity|]. cbn.
    split; [exact Hn|]. split; [|discriminate].
    rewrite Hpos. reflexivity.
Qed.

(* ====================================================================== *)
(** * Export *)
(* ====================================================================== *)

(** Counterexample to C6 as stated: for an empty sequence the export block
    builds no file at all, so in particular no header-only one. *)
Lemma export_block_empty_counterexample :
  ~ (exists csv_data file_name,
        export_block "All Venues" sample_now [] = Ok (download_button csv_data file_name)
        /\ df_columns csv_data = export_columns
        /\ df_data csv_data = []).
Proof. intros (csv_data & file_name & H & _). cbn in H. discriminate. Qed.

Lemma sequence_length {A} (ms : list (result A)) (l : list A) :
  sequence ms = Ok l -> length l = length ms.
Proof.
  revert l. induction ms as [|m ms IH]; intros l; cbn.
  - by intros [= <-].
  - destruct m as [a|e]; cbn; [|discriminate].
    destruct (sequence ms) as [l'|e]; cbn; [|discriminate].
    intros [= <-]. cbn. f_equal. by apply IH.
Qed.

Lemma export_record_keys (v : Venue) (record : list (string * value)) :
  export_record v = Ok record -> record.*1 = export_columns.
Proof.
  unfold export_record.
  destruct (truthy (getattr v "visit_date")); [destruct (getattr v "visit_date")|];
    cbn; try discriminate; by intros [= <-].
Qed.

Lemma export_record_raises (v : Venue) (e : exn) :
  export_record v = Raise e -> e = AttributeError.
Proof.
  unfold export_record.
  destruct (truthy (getattr v "visit_date")); [destruct (getattr v "visit_date")|];
    cbn; try discriminate; by intros [= <-].
Qed.

Lemma export_records_raise (vs : list Venue) (e : exn) :
  sequence (map export_record vs) = Raise e -> e = AttributeError.
Proof.
  induction vs as [|v vs IH]; cbn; [discriminate|].
  destruct (export_record v) as [r|e'] eqn:Hv; cbn.
  - destruct (sequence _) as [l|e']; cbn; [discriminate|].
    intros [= <-]. by apply IH.
  - intros [= <-]. by apply export_record_raises in Hv.
Qed.

(** C6 (amended).  Exporting an empty venue sequence raises no error and
    produces no CSV file: the block only shows the warning "No venues match
    the selected criteria" and offers no download.  A file is offered for a
    non-empty sequence only; it then has the fixed column headers and one
    data row per venue (the one error possible is a [visit_date] that is not
    a datetime). *)
Theorem export_block_empty (export_type : string) (now : datetime) :
  export_block export_type now []
  = Ok (warning "No venues match the selected criteria")
  /\ (forall v vs,
        match export_block export_type now (v :: vs) with
        | Ok (download_button csv_data _) =>
            df_columns csv_data = export_columns
            /\ length (df_data csv_data) = S (length vs)
        | Ok (warning _) => False
        | Raise e => e = AttributeError
        end).
Proof.
  split; [reflexivity|].
  intros v vs. unfold export_block, export_df.
  destruct (sequence (map export_record (v :: vs))) as [records|e] eqn:Hseq; cbn.
  - pose proof (sequence_length _ _ Hseq) as Hlen. rewrite length_map in Hlen.
    unfold pd_DataFrame. cbn. rewrite length_map. split; [|exact Hlen].
    cbn in Hseq.
    destruct (export_record v) as [r|e] eqn:Hv; cbn in Hseq; [|discriminate].
    destruct (sequence _) as [l|e]; cbn in Hseq; [|discriminate].
    injection Hseq as <-. by apply export_record_keys in Hv.
  - by apply export_records_raise in Hseq.
Qed.

(** Past the guard an empty list would not give the fixed headers either: a
    frame built from no record has no column. *)
Example export_df_empty : export_df [] = Ok (mk_DataFrame [] []).
Proof. reflexivity. Qed.

(** Counterexample to C7 as stated: where both variants exist, the exported
    Address, Phone and Website are the externally sourced (Google) ones, not
    the locally curated ones. *)
Lemma export_record_prefers_google_counterexample :
  exists record,
    export_record sample_surveyed = Ok record
    /\ record_get record "Address" = Some (VStr "12 Park St, Bristol")
    /\ record_get record "Address" <> Some (getattr sample_surveyed "address")
    /\ record_get record "Phone" = Some (VStr "0117 496 0000")
    /\ record_get record "Phone" <> Some (getattr sample_surveyed "phone")
    /\ record_get record "Website" = Some (VStr "https://anchor.example/g")
    /\ record_get record "Website" <> Some (getattr sample_surveyed "website").
Proof.
  eexists. split; [vm_compute; reflexivity|].
  repeat split; try reflexivity; vm_compute; discriminate.
Qed.

(** C7 (amended).  For every venue whose [visit_date] is a datetime or null,
    the export record is built without error; its Address, Phone and Website
    are the Google field ([google_vicinity], [google_phone],
    [google_website]) when that field is set and non-empty, and the local
    field ([address], [phone], [website]) otherwise; its Visit Date is the
    [visit_date] formatted as 'YYYY-MM-DD HH:MM:SS', and null when
    [visit_date] is null. *)
Theorem export_record_contact_and_visit_date (v : Venue) :
  (getattr v "visit_date" = VNone \/ exists d, getattr v "visit_date" = VDateTime d) ->
  exists record,
    export_record v = Ok record
    /\ record_get record "Address"
       = Some (if truthy (getattr v "google_vicinity")
               then getattr v "google_vicinity" else getattr v "address")
    /\ record_get record "Phone"
       = Some (if truthy (getattr v "google_phone")
               then getattr v "google_phone" else getattr v "phone")
    /\ record_get record "Website"
       = Some (if truthy (getattr v "google_website")
               then getattr v "google_website" else getattr v "website")
    /\ record_get record "Visit Date"
       = Some (match getattr v "visit_date" with
               | VDateTime d => VStr (strftime_export d)
               | _ => VNone
               end).
Proof.
  intros Hdate. unfold export_record.
  destruct Hdate as [Hd | [d Hd]]; rewrite Hd; cbn -[getattr];
    eexists; (split; [reflexivity|]); repeat split.
Qed.

Lemma export_record_contact_and_visit_date_witness :
  exists record,
    export_record sample_surveyed = Ok record
    /\ record_get record "Address"
       = Some (if truthy (getattr sample_surveyed "google_vicinity")
               then getattr sample_surveyed "google_vicinity"
               else getattr sample_surveyed "address")
    /\ record_get record "Phone"
       = Some (if truthy (getattr sample_surveyed "google_phone")
               then getattr sample_surveyed "google_phone"
               else getattr sample_surveyed "phone")
    /\ record_get record "Website"
       = Some (if truthy (getattr sample_surveyed "google_website")
               then getattr sample_surveyed "google_website"
               else getattr sample_surveyed "website")
    /\ record_get record "Visit Date"
       = Some (match getattr sample_surveyed "visit_date" with
               | VDateTime d => VStr (strftime_export d)
               | _ => VNone
               end).
Proof.
  apply (export_record_contact_and_visit_date sample_surveyed).
  right. eexists. vm_compute. reflexivity.
Defined.

(* ====================================================================== *)
(** * calculate_distance *)
(* ====================================================================== *)

Lemma Geo_truthy_Some (x : R) : x <> 0%R -> Geo.truthy (Some x) = true.
Proof. intros Hx. unfold Geo.truthy. destruct (Req_dec_T x 0); [contradiction | reflexivity]. Qed.

Lemma Geo_round2_0 : Geo.round2 0 = 0%R.
Proof.
  unfold Geo.round2, Geo.round_half_even.
  replace (0 * 100)%R with 0%R by ring.
  assert (H0 : Int_part 0 = 0) by (symmetry; apply Int_part_spec; cbn; lra).
  rewrite H0. cbn.
  destruct (Rlt_dec (0 - 0) (1 / 2)) as [_ | Hn]; [cbn; lra | exfalso; apply Hn; lra].
Qed.

(** C5.  For every coordinate pair whose latitude and longitude are present
    and not falsy, i.e. not zero, [calculate_distance(lat, lon, lat, lon)]
    is 0; and [calculate_distance] returns [None] exactly when one of its
    four inputs is [None] or falsy.  (Floats are idealised as reals.) *)
Theorem calculate_distance_same_point (lat lon : R) :
  lat <> 0%R -> lon <> 0%R ->
  Geo.calculate_distance (Some lat) (Some lon) (Some lat) (Some lon) = Some 0%R
  /\ (forall a b c d,
         Geo.calculate_distance a b c d = None
         <-> Geo.all [a; b; c; d] = false).
Proof.
  intros Hlat Hlon. split.
  - unfold Geo.calculate_distance, Geo.all. cbn [forallb].
    rewrite !Geo_truthy_Some by assumption. cbn [andb negb].
    f_equal.
    replace (Geo.radians lat - Geo.radians lat)%R with 0%R by ring.
    replace (Geo.radians lon - Geo.radians lon)%R with 0%R by ring.
    replace (0 / 2)%R with 0%R by lra.
    rewrite sin_0.
    replace (0 ^ 2 + cos (Geo.radians lat) * cos (Geo.radians lat) * 0 ^ 2)%R
      with 0%R by ring.
    rewrite sqrt_0, asin_0.
    replace (3959 * (2 * 0))%R with 0%R by ring.
    apply Geo_round2_0.
  - intros a b c d. unfold Geo.calculate_distance.
    destruct (Geo.all [a; b; c; d]) eqn:Hall; cbn [negb].
    + split; [|discriminate].
      destruct a, b, c, d; cbn in Hall; try discriminate;
        repeat match type of Hall with
               | context [Req_dec_T ?x ?y] => destruct (Req_dec_T x y)
               end; cbn in Hall; discriminate.
    + split; reflexivity.
Qed.

Lemma calculate_distance_same_point_witness :
  Geo.calculate_distance (Some (514545 / 10000)%R) (Some (- 25879 / 10000)%R)
    (Some (514545 / 10000)%R) (Some (- 25879 / 10000)%R) = Some 0%R
  /\ (forall a b c d,
         Geo.calculate_distance a b c d = None
         <-> Geo.all [a; b; c; d] = false).
Proof.
  apply (calculate_distance_same_point (514545 / 10000) (- 25879 / 10000)); lra.
Defined.

(** A point on the equator or on the prime meridian has a zero, hence
    falsy, coordinate: no distance is computed for it. *)
Lemma calculate_distance_zero_coordinate (lon : R) :
  Geo.calculate_distance (Some 0%R) (Some lon) (Some 0%R) (Some lon) = None.
Proof.
  unfold Geo.calculate_distance, Geo.all. cbn [forallb Geo.truthy].
  destruct (Req_dec_T 0 0) as [_ | Hn]; [reflexivity | contradiction].
Qed.

(* ====================================================================== *)
(** * import_from_csv *)
(* ====================================================================== *)

Lemma eval_kwargs_keys (kwargs : list (string * result value))
      (l : list (string * value)) :
  eval_kwargs kwargs = Ok l -> l.*1 = kwargs.*1.
Proof.
  unfold eval_kwargs. revert l.
  induction kwargs as [|[k m] kwargs IH]; intros l; cbn.
  - intros [= <-]. reflexivity.
  - destruct m as [x|e]; cbn; [|discriminate].
    destruct (sequence _) as [l'|e]; cbn; [|discriminate].
    intros [= <-]. cbn. f_equal. by apply IH.
Qed.

Lemma eval_kwargs_head (k : string) (x : value)
      (kwargs : list (string * result value)) (l : list (string * value)) :
  eval_kwargs ((k, Ok x) :: kwargs) = Ok l -> exists l', l = (k, x) :: l'.
Proof.
  unfold eval_kwargs. cbn.
  destruct (sequence _) as [l'|e]; cbn; [|discriminate].
  intros [= <-]. by exists l'.
Qed.

(** A default never overwrites an attribute. *)
Lemma fire_defaults_keep (utcnow : nat -> datetime) (cols : list column)
      (st : Venue * nat) (k : string) (x : value) :
  st.1 !! k = Some x -> (foldl (fire_default utcnow) st cols).1 !! k = Some x.
Proof.
  revert st. induction cols as [|c cols IH]; intros st Hk; [exact Hk|].
  cbn [foldl]. apply IH. unfold fire_default.
  destruct (st.1 !! col_name c) eqn:Hc; [exact Hk|].
  assert (col_name c <> k) by congruence.
  destruct (col_default c); cbn; [exact Hk | |]; by rewrite lookup_insert_ne.
Qed.

(** A column without default stays unassigned. *)
Lemma fire_defaults_none (utcnow : nat -> datetime) (cols : list column)
      (st : Venue * nat) (k : string) :
  (forall c, In c cols -> col_name c = k -> col_default c = no_default) ->
  st.1 !! k = None -> (foldl (fire_default utcnow) st cols).1 !! k = None.
Proof.
  revert st. induction cols as [|c cols IH]; intros st Hcols Hk; [exact Hk|].
  cbn [foldl]. apply IH; [intros c' Hc'; apply Hcols; by right|].
  unfold fire_default.
  destruct (st.1 !! col_name c) eqn:Hc; [exact Hk|].
  destruct (String.eqb_spec (col_name c) k) as [Heq|Hne].
  - rewrite (Hcols c (or_introl eq_refl) Heq). exact Hk.
  - destruct (col_default c); cbn; [exact Hk | |]; by rewrite lookup_insert_ne.
Qed.

(** A scalar default fires on an unassigned attribute. *)
Lemma fire_defaults_scalar (utcnow : nat -> datetime) (cols : list column)
      (st : Venue * nat) (k : string) (x : value) :
  (exists c, In c cols /\ col_name c = k) ->
  (forall c, In c cols -> col_name c = k -> col_default c = scalar_default x) ->
  st.1 !! k = None -> (foldl (fire_default utcnow) st cols).1 !! k = Some x.
Proof.
  revert st. induction cols as [|c cols IH]; intros st [c0 [Hin Hname]] Hcols Hk.
  - destruct Hin.
  - cbn [foldl].
    destruct (String.eqb_spec (col_name c) k) as [Heq|Hne].
    + apply fire_defaults_keep. unfold fire_default.
      rewrite Heq, Hk, (Hcols c (or_introl eq_refl) Heq). cbn.
      by rewrite lookup_insert_eq.
    + apply IH.
      * destruct Hin as [<-|Hin]; [contradiction|]. eauto.
      * intros c' Hc'. apply Hcols. by right.
      * unfold fire_default.
        destruct (st.1 !! col_name c) eqn:Hc; [exact Hk|].
        destruct (col_default c); cbn; [exact Hk | |]; by rewrite lookup_insert_ne.
Qed.

(** Routine facts on the concrete column list: every column named [k] has
    the default at hand. *)
Ltac columns_named :=
  let c := fresh "c" in
  let Hin := fresh "Hin" in
  let Hname := fresh "Hname" in
  intros c Hin Hname; cbn in Hin;
  repeat (destruct Hin as [<-|Hin]; [first [reflexivity | discriminate Hname]|]);
  destruct Hin.

Lemma query_first_filter_app (c : Venue -> option bool) (q1 q2 : list Venue) :
  is_Some (query_first (query_filter c q1)) ->
  is_Some (query_first (query_filter c (q1 ++ q2))).
Proof.
  unfold query_first, query_filter. rewrite List.filter_app.
  destruct (List.filter _ q1); cbn; [intros [? [=]] | eauto].
Qed.

Lemma query_first_filter_last (c : Venue -> option bool) (q : list Venue) (v : Venue) :
  c v = Some true -> is_Some (query_first (query_filter c (q ++ [v]))).
Proof.
  intros Hc. unfold query_first, query_filter. rewrite List.filter_app. cbn.
  rewrite Hc. cbn. destruct (List.filter _ q); cbn; eauto.
Qed.

Lemma datetime_eqb_refl (d : datetime) : datetime_eqb d d = true.
Proof. unfold datetime_eqb. by rewrite !Z.eqb_refl. Qed.

(** A key that is not NaN is found equal to what was stored for it. *)
Lemma column_eq_stored (x : value) :
  not_nan x = true -> column_eq (sqlite_bind x) x = Some true.
Proof.
  destruct x as [|b|z|f|s|d]; cbn; intros Hx.
  - reflexivity.
  - by destruct b.
  - by rewrite Z.eqb_refl.
  - unfold PrimFloat.is_nan in *. apply negb_true_iff, negb_false_iff in Hx.
    unfold PrimFloat.is_nan. rewrite Hx. cbn. by rewrite Hx.
  - by rewrite String.eqb_refl.
  - by rewrite datetime_eqb_refl.
Qed.

Section ImportFacts.
Variable utcnow : nat -> datetime.
Variable parse_float : string -> option float.
Variable parse_int : string -> option Z.

Local Abbreviation kwargs_of := (Venue_kwargs parse_float parse_int).
Local Abbreviation import_one := (import_row utcnow parse_float parse_int).
Local Abbreviation import_all := (import_loop utcnow parse_float parse_int).
Local Abbreviation inert := (inert parse_float parse_int).

(** The stored row keeps the identity key the object was given. *)
Lemma insert_row_place_id (db : Database) (venue : Venue) (x : value) :
  venue !! "google_place_id" = Some x ->
  getattr (insert_row utcnow db venue).1 "google_place_id" = sqlite_bind x.
Proof.
  intros Hx. unfold insert_row, getattr, setattr. cbn [fst].
  rewrite lookup_fmap.
  rewrite (fire_defaults_keep utcnow _ _ _ x); [reflexivity|].
  cbn. by rewrite lookup_insert_ne by discriminate.
Qed.

(** An object that was given no survey attribute is stored with the
    survey columns at their defaults. *)
Lemma insert_row_survey_defaults (db : Database) (venue : Venue) :
  venue !! "visited" = None ->
  venue !! "visit_date" = None ->
  venue !! "interest_status" = None ->
  venue !! "is_priority" = None ->
  venue !! "notes" = None ->
  survey_defaults (insert_row utcnow db venue).1.
Proof.
  intros Hv Hd Hi Hp Hn. unfold survey_defaults, insert_row, getattr, setattr.
  cbn [fst]. rewrite !lookup_fmap.
  refine (conj _ (conj _ (conj _ (conj _ _)))).
  - rewrite (fire_defaults_scalar utcnow _ _ _ (VBool false)); [reflexivity | | |].
    + eexists (Column "visited" _ _). split; [|reflexivity]. cbn. tauto.
    + columns_named.
    + cbn. by rewrite lookup_insert_ne by discriminate.
  - rewrite fire_defaults_none; [reflexivity | columns_named |].
    cbn. by rewrite lookup_insert_ne by discriminate.
  - rewrite fire_defaults_none; [reflexivity | columns_named |].
    cbn. by rewrite lookup_insert_ne by discriminate.
  - rewrite (fire_defaults_scalar utcnow _ _ _ (VBool false)); [reflexivity | | |].
    + eexists (Column "is_priority" _ _). split; [|reflexivity]. cbn. tauto.
    + columns_named.
    + cbn. by rewrite lookup_insert_ne by discriminate.
  - rewrite fire_defaults_none; [reflexivity | columns_named |].
    cbn. by rewrite lookup_insert_ne by discriminate.
Qed.

(** The constructor call of the import never passes a survey attribute. *)
Lemma Venue_kwargs_no_survey (row : Row) (kwargs : list (string * value))
      (key : string) :
  eval_kwargs (kwargs_of row) = Ok kwargs ->
  key ∈ ["visited"; "visit_date"; "interest_status"; "is_priority"; "notes"]%string ->
  Venue_new kwargs !! key = None.
Proof.
  intros Hk Hkey. unfold Venue_new. apply not_elem_of_list_to_map_1.
  rewrite (eval_kwargs_keys _ _ Hk). cbn.
  intros Hin. rewrite !elem_of_cons, elem_of_nil in Hkey.
  destruct Hkey as [->|[->|[->|[->|[->|[]]]]]];
    rewrite !elem_of_cons, elem_of_nil in Hin;
    repeat (destruct Hin as [Hin|Hin]; [discriminate Hin|]); exact Hin.
Qed.

Lemma import_row_added (db db' : Database) (row : Row) :
  import_one db row = Ok (Added db') ->
  exists venue,
    venues db' = venues db ++ [venue]
    /\ survey_defaults venue
    /\ getattr venue "google_place_id"
       = sqlite_bind (row_get row "google_place_id").
Proof.
  unfold import_row.
  destruct (find_by_place_id db _); [discriminate|].
  destruct (eval_kwargs _) as [kwargs|e] eqn:Hk; cbn; [|discriminate].
  intros [= <-]. eexists. split; [reflexivity|]. split.
  - apply insert_row_survey_defaults;
      apply (Venue_kwargs_no_survey row); try exact Hk;
      rewrite !elem_of_cons; tauto.
  - apply insert_row_place_id.
    apply eval_kwargs_head in Hk as [l' ->].
    unfold Venue_new. cbn. by rewrite lookup_insert_eq.
Qed.

(** The import only appends rows, each with the survey fields at their
    defaults, and counts exactly the rows it appends. *)
Lemma import_loop_appends (rows : list Row) (db : Database) (count errors : Z) :
  exists added,
    venues (import_all rows db count errors).1 = venues db ++ added
    /\ Forall survey_defaults added
    /\ (import_all rows db count errors).2.1 = count + Z.of_nat (length added).
Proof.
  revert db count errors.
  induction rows as [|row rows IH]; intros db count errors; cbn.
  - exists []. rewrite app_nil_r. cbn. repeat split; [constructor | lia].
  - destruct (import_one db row) as [[|db']|e] eqn:Hrow.
    + apply IH.
    + apply import_row_added in Hrow as (venue & Hv & Hs & _).
      destruct (IH db' (count + 1) errors) as (added & Ha & Hf & Hc).
      exists (venue :: added). rewrite Ha, Hv, Hc, <- app_assoc. cbn.
      repeat split; [by constructor | lia].
    + apply IH.
Qed.

Lemma inert_app (db db' : Database) (row : Row) (added : list Venue) :
  venues db' = venues db ++ added -> inert db row -> inert db' row.
Proof.
  intros Hv [Hfound | Hraise]; [left | by right].
  unfold find_by_place_id in *. rewrite Hv. by apply query_first_filter_app.
Qed.

Lemma import_loop_inert (rows : list Row) (db : Database) (count errors : Z) :
  Forall (inert db) rows ->
  exists errors',
    import_all rows db count errors = (db, (count, errors')).
Proof.
  revert errors. induction rows as [|row rows IH]; intros errors Hall; cbn.
  - by exists errors.
  - apply Forall_cons in Hall as [Hrow Hall]. unfold import_row.
    destruct Hrow as [[v Hfound] | [e Hraise]].
    + rewrite Hfound. by apply IH.
    + destruct (find_by_place_id db _); [by apply IH|].
      rewrite Hraise. cbn. by apply IH.
Qed.

Lemma import_loop_settles (rows : list Row) (db : Database) (count errors : Z) :
  Forall has_place_id rows ->
  Forall (inert (import_all rows db count errors).1) rows.
Proof.
  revert db count errors.
  induction rows as [|row rows IH]; intros db count errors Hkeys; [constructor|].
  apply Forall_cons in Hkeys as [Hkey Hkeys]. cbn.
  destruct (import_one db row) as [[|db']|e] eqn:Hrow.
  - constructor; [|by apply IH].
    destruct (import_loop_appends rows db count errors) as (added & Ha & _).
    apply (inert_app db _ row added Ha). left.
    unfold import_row in Hrow.
    destruct (find_by_place_id db _); [eauto | ].
    destruct (eval_kwargs _); discriminate.
  - constructor; [|by apply IH].
    destruct (import_loop_appends rows db' (count + 1) errors) as (added & Ha & _).
    apply (inert_app db' _ row added Ha). left.
    apply import_row_added in Hrow as (venue & Hv & _ & Hid).
    unfold find_by_place_id. rewrite Hv.
    apply query_first_filter_last.
    rewrite Hid. by apply column_eq_stored.
  - constructor; [|by apply IH]. right.
    unfold import_row in Hrow.
    destruct (find_by_place_id db _); [discriminate|].
    destruct (eval_kwargs _) as [kwargs|e']; [discriminate | eauto].
Qed.

(** C9.  Whatever the store and the rows of the CSV (columns named like
    the survey fields included), [import_from_csv] only appends records,
    counts exactly the records it appends, and every record it creates has
    its survey fields at their defaults: [visited] false, [visit_date]
    null, [interest_status] null, [is_priority] false, [notes] null. *)
Theorem import_from_csv_survey_defaults (db : Database) (df : list Row) :
  exists added,
    venues (import_from_csv utcnow parse_float parse_int db df).1
    = venues db ++ added
    /\ Forall survey_defaults added
    /\ (import_from_csv utcnow parse_float parse_int db df).2.1
       = Z.of_nat (length added).
Proof.
  destruct (import_loop_appends df db 0 0) as (added & Ha & Hf & Hc).
  exists added. unfold import_from_csv. rewrite Ha, Hc.
  split; [reflexivity|]. split; [exact Hf | lia].
Qed.

(** C3 (amended).  For every store and every row set in which no row has
    an empty [google_place_id] cell, importing the row set and then
    importing it again imports nothing the second time: the imported count
    is 0 and the store is unchanged.  In any store, a row whose
    [google_place_id] is found is skipped: neither counter moves and no
    record is added. *)
Theorem import_from_csv_idempotent (db : Database) (df : list Row) :
  Forall has_place_id df ->
  let first := import_from_csv utcnow parse_float parse_int db df in
  let second := import_from_csv utcnow parse_float parse_int first.1 df in
  second.2.1 = 0
  /\ second.1 = first.1
  /\ (forall db' row count errors,
        is_Some (find_by_place_id db' (row_get row "google_place_id")) ->
        import_all [row] db' count errors = (db', (count, errors))).
Proof.
  intros Hkeys. cbv zeta. unfold import_from_csv.
  pose proof (import_loop_settles df db 0 0 Hkeys) as Hinert.
  destruct (import_loop_inert df _ 0 0 Hinert) as (errors' & ->). cbn.
  split; [reflexivity|]. split; [reflexivity|].
  intros db' row count errors [v Hv]. cbn. unfold import_row. by rewrite Hv.
Qed.
End ImportFacts.

(** Counterexample to C3 as stated: a row whose [google_place_id] cell is
    empty matches no stored key, so importing it a second time imports it
    again. *)
Lemma import_from_csv_reimport_counterexample :
  (import_from_csv sample_clock no_float no_int
     (import_from_csv sample_clock no_float no_int empty_db [row_without_place_id]).1
     [row_without_place_id]).2.1 <> 0.
Proof. vm_compute. discriminate. Qed.

Lemma import_from_csv_idempotent_witness :
  let first := import_from_csv sample_clock no_float no_int empty_db sample_rows in
  let second := import_from_csv sample_clock no_float no_int first.1 sample_rows in
  second.2.1 = 0
  /\ second.1 = first.1
  /\ (forall db' row count errors,
        is_Some (find_by_place_id db' (row_get row "google_place_id")) ->
        import_loop sample_clock no_float no_int [row] db' count errors
        = (db', (count, errors))).
Proof.
  apply (import_from_csv_idempotent sample_clock no_float no_int empty_db sample_rows).
  repeat constructor.
Defined.

(** The survey columns of a CSV are not read: the row is stored unvisited. *)
Example import_ignores_survey_columns :
  map (fun v => (getattr v "visited", getattr v "interest_status",
                 getattr v "is_priority", getattr v "notes"))
    (venues (import_from_csv sample_clock no_float no_int empty_db
               [row_with_survey_columns]).1)
  = [(VBool false, VNone, VBool false, VNone)].
Proof. vm_compute. reflexivity. Qed.

(** The first import of the sample file adds one record, skips the repeated
    row and counts the row that cannot be built as an error. *)
Example import_sample_rows_counts :
  (import_from_csv sample_clock no_float no_int empty_db sample_rows).2 = (1, 1).
Proof. vm_compute. reflexivity. Qed.

(* ====================================================================== *)
(** * More on filter_venues *)
(* ====================================================================== *)

Lemma query_filter_In (c : Venue -> option bool) (q : list Venue) (v : Venue) :
  In v (query_filter c q) <-> In v q /\ c v = Some true.
Proof.
  unfold query_filter. rewrite filter_In.
  destruct (c v) as [[|]|]; cbn; intuition congruence.
Qed.

Lemma filter_if_In (b : bool) (c : Venue -> option bool) (q : list Venue) (v : Venue) :
  In v (filter_if b c q) <-> In v q /\ (b = true -> c v = Some true).
Proof.
  destruct b; cbn.
  - rewrite query_filter_In. intuition.
  - intuition discriminate.
Qed.

Lemma query_filter_sublist (c : Venue -> option bool) (q : list Venue) :
  query_filter c q `sublist_of` q.
Proof.
  unfold query_filter. induction q as [|v q IH]; cbn; [constructor|].
  destruct (sql_true (c v)); by constructor.
Qed.

Lemma query_filter_sublist_mono (c : Venue -> option bool) (q q' : list Venue) :
  q `sublist_of` q' -> query_filter c q `sublist_of` query_filter c q'.
Proof.
  unfold query_filter. induction 1 as [|v q q' _ IH|v q q' _ IH]; cbn.
  - constructor.
  - destruct (sql_true (c v)); [by constructor | exact IH].
  - destruct (sql_true (c v)); [by constructor | exact IH].
Qed.

Lemma filter_if_sublist (b : bool) (c : Venue -> option bool) (q : list Venue) :
  filter_if b c q `sublist_of` q.
Proof. destruct b; [apply query_filter_sublist | reflexivity]. Qed.

Lemma filter_if_sublist_mono (b b' : bool) (c : Venue -> option bool)
      (q q' : list Venue) :
  (b' = true -> b = true) ->
  q `sublist_of` q' -> filter_if b c q `sublist_of` filter_if b' c q'.
Proof.
  intros Hb Hq. destruct b'.
  - rewrite Hb by reflexivity. by apply query_filter_sublist_mono.
  - cbn. etransitivity; [apply filter_if_sublist | exact Hq].
Qed.

Lemma column_eq_str_iff (col : value) (s : string) :
  column_eq col (VStr s) = Some true <-> col = VStr s.
Proof.
  split; [apply column_eq_str|]. intros ->. cbn. by rewrite String.eqb_refl.
Qed.

Lemma column_eq_bool_iff (col : value) (b : bool) :
  column_eq col (VBool b) = Some true <-> col = VBool b.
Proof.
  split.
  - destruct col as [| b' | | | |]; cbn; try discriminate.
    destruct b, b'; cbn; congruence.
  - intros ->. by destruct b.
Qed.

Lemma truthy_str_arg (a : option string) :
  truthy (str_arg a) = true <-> exists s, a = Some s /\ s <> ""%string.
Proof.
  destruct a as [s|]; cbn.
  - rewrite negb_true_iff. split.
    + intros Hs. exists s. split; [reflexivity|]. by apply String.eqb_neq.
    + intros (s' & [= <-] & Hs). by apply String.eqb_neq.
  - split; [discriminate | intros (s & [=] & _)].
Qed.

Lemma selected_iff (a : option string) :
  selected a = true
  <-> exists s, a = Some s /\ s <> ""%string /\ s <> "All"%string.
Proof.
  unfold selected. rewrite andb_true_iff, truthy_str_arg, negb_true_iff.
  split.
  - intros [(s & -> & Hs) Hall]. exists s. cbn in Hall.
    apply String.eqb_neq in Hall. eauto.
  - intros (s & -> & Hs & Hall). split; [eauto|]. cbn. by apply String.eqb_neq.
Qed.

(** A string criterion in force selects the rows whose column is that
    string. *)
Lemma string_criterion (cond : bool) (a : option string) (col : value)
      (P : string -> Prop) :
  (cond = true <-> exists s, a = Some s /\ P s) ->
  (cond = true -> column_eq col (str_arg a) = Some true)
  <-> (forall s, a = Some s -> P s -> col = VStr s).
Proof.
  intros Hcond. split.
  - intros H s -> Hs. apply column_eq_str_iff, H, Hcond. eauto.
  - intros H Hc. apply Hcond in Hc as (s & -> & Hs). cbn [str_arg from_option].
    apply column_eq_str_iff. eauto.
Qed.

(** Membership in the result of [filter_venues], criterion by criterion. *)
Lemma filter_venues_body_criteria (db : Database)
        (ward postcode_sector amenity cuisine : option string)
        (min_rating : option float) (visited : option bool)
        (interest_status business_status : option string) (v : Venue) :
  In v (filter_venues_body db ward postcode_sector amenity cuisine min_rating
          visited interest_status business_status)
  <-> In v (venues db)
      /\ (forall s, business_status = Some s -> s <> ""%string ->
                    getattr v "business_status" = VStr s)
      /\ (forall s, ward = Some s -> s <> ""%string /\ s <> "All"%string ->
                    getattr v "search_ward" = VStr s)
      /\ (forall s, postcode_sector = Some s -> s <> ""%string /\ s <> "All"%string ->
                    getattr v "search_postcode_sector" = VStr s)
      /\ (forall s, amenity = Some s -> s <> ""%string /\ s <> "All"%string ->
                    getattr v "amenity" = VStr s)
      /\ (forall s, cuisine = Some s -> s <> ""%string /\ s <> "All"%string ->
                    getattr v "cuisine" = VStr s)
      /\ (forall m, min_rating = Some m ->
                    truthy (VFloat m) && PrimFloat.ltb PrimFloat.zero m = true ->
                    column_ge (getattr v "google_rating") (VFloat m) = Some true)
      /\ (forall b, visited = Some b -> getattr v "visited" = VBool b)
      /\ (forall s, interest_status = Some s -> s <> ""%string ->
                    getattr v "interest_status" = VStr s).
Proof.
  unfold filter_venues_body. rewrite !filter_if_In.
  rewrite (string_criterion _ business_status _ (fun s => s <> ""%string))
    by apply truthy_str_arg.
  rewrite (string_criterion _ interest_status _ (fun s => s <> ""%string))
    by apply truthy_str_arg.
  rewrite !(string_criterion _ _ _ (fun s => s <> ""%string /\ s <> "All"%string))
    by apply selected_iff.
  assert (Hvisited :
            (bool_decide (is_Some visited) = true ->
             column_eq (getattr v "visited") (bool_arg visited) = Some true)
            <-> (forall b, visited = Some b -> getattr v "visited" = VBool b)).
  { destruct visited as [b|]; cbn [bool_arg from_option].
    - rewrite column_eq_bool_iff. split.
      + intros H b' [= <-]. apply H. by apply bool_decide_eq_true_2.
      + eauto.
    - split; [intros _ b [=] | intros _ H].
      apply bool_decide_eq_true_1 in H. by destruct H. }
  assert (Hrating :
            (truthy (float_arg min_rating) && positive min_rating = true ->
             column_ge (getattr v "google_rating") (float_arg min_rating) = Some true)
            <-> (forall m, min_rating = Some m ->
                   truthy (VFloat m) && PrimFloat.ltb PrimFloat.zero m = true ->
                   column_ge (getattr v "google_rating") (VFloat m) = Some true)).
  { destruct min_rating as [m|]; cbn [float_arg from_option positive].
    - split; [intros H m' [= <-]; exact H | eauto].
    - split; [intros _ m [=] | intros _; discriminate]. }
  rewrite Hvisited, Hrating. tauto.
Qed.

(** X1.  [filter_venues] returns the records that match all the supplied
    criteria, and only those.  A venue is in the result exactly when it is
    in the table and: its business status is the one given (unless empty);
    its ward, postcode sector, amenity and cuisine are the ones given
    (unless empty or "All"); its rating is at least a positive minimum; its
    visited flag is the one given; its interest status is the one given
    (unless empty). *)
Theorem filter_venues_body_In (db : Database)
        (ward postcode_sector amenity cuisine : option string)
        (min_rating : option float) (visited : option bool)
        (interest_status business_status : option string) (v : Venue) :
  In v (filter_venues_body db ward postcode_sector amenity cuisine min_rating
          visited interest_status business_status)
  <-> In v (venues db)
      /\ (forall s, business_status = Some s -> s <> ""%string ->
                    getattr v "business_status" = VStr s)
      /\ (forall s, ward = Some s -> s <> ""%string /\ s <> "All"%string ->
                    getattr v "search_ward" = VStr s)
      /\ (forall s, postcode_sector = Some s -> s <> ""%string /\ s <> "All"%string ->
                    getattr v "search_postcode_sector" = VStr s)
      /\ (forall s, amenity = Some s -> s <> ""%string /\ s <> "All"%string ->
                    getattr v "amenity" = VStr s)
      /\ (forall s, cuisine = Some s -> s <> ""%string /\ s <> "All"%string ->
                    getattr v "cuisine" = VStr s)
      /\ (forall m, min_rating = Some m ->
                    truthy (VFloat m) && PrimFloat.ltb PrimFloat.zero m = true ->
                    column_ge (getattr v "google_rating") (VFloat m) = Some true)
      /\ (forall b, visited = Some b -> getattr v "visited" = VBool b)
      /\ (forall s, interest_status = Some s -> s <> ""%string ->
                    getattr v "interest_status" = VStr s).
Proof.
  apply filter_venues_body_criteria.
Qed.

(** X2.  The result of [filter_venues] is a sublist of the table: the rows
    come in table order, none is repeated or invented. *)
Theorem filter_venues_sublist (db : Database) (kw : filter_kwargs) :
  filter_venues db kw `sublist_of` get_all_venues db.
Proof.
  unfold filter_venues, filter_venues_body, get_all_venues.
  repeat (etransitivity; [apply filter_if_sublist|]). reflexivity.
Qed.

Lemma positive_non_nan (m : float) :
  PrimFloat.is_nan m = true -> column_ge (VFloat m) (VFloat m) = None.
Proof. intros Hm. unfold column_ge, sqlite_bind. by rewrite Hm. Qed.

(** X3.  A string criterion given as [None], as the empty string or as
    "All" is the same as no criterion, and so is a minimum rating that is
    not greater than zero. *)
Theorem filter_venues_sentinels (db : Database)
        (ward postcode_sector amenity cuisine : option string)
        (min_rating : option float) (visited : option bool)
        (interest_status business_status : option string)
        (sentinel : option string) (m : float) :
  sentinel = None \/ sentinel = Some ""%string \/ sentinel = Some "All"%string ->
  PrimFloat.ltb PrimFloat.zero m = false ->
  filter_venues_body db sentinel postcode_sector amenity cuisine min_rating
    visited interest_status business_status
  = filter_venues_body db None postcode_sector amenity cuisine min_rating
      visited interest_status business_status
  /\ filter_venues_body db ward sentinel amenity cuisine min_rating
       visited interest_status business_status
     = filter_venues_body db ward None amenity cuisine min_rating
         visited interest_status business_status
  /\ filter_venues_body db ward postcode_sector sentinel cuisine min_rating
       visited interest_status business_status
     = filter_venues_body db ward postcode_sector None cuisine min_rating
         visited interest_status business_status
  /\ filter_venues_body db ward postcode_sector amenity sentinel min_rating
       visited interest_status business_status
     = filter_venues_body db ward postcode_sector amenity None min_rating
         visited interest_status business_status
  /\ filter_venues_body db ward postcode_sector amenity cuisine (Some m)
       visited interest_status business_status
     = filter_venues_body db ward postcode_sector amenity cuisine None
         visited interest_status business_status.
Proof.
  intros Hs Hm.
  assert (Hsel : selected sentinel = false)
    by (destruct Hs as [->|[->| ->]]; reflexivity).
  unfold filter_venues_body. cbn [positive float_arg from_option].
  rewrite Hsel, Hm, andb_false_r. cbn [filter_if selected str_arg from_option truthy andb].
  repeat split.
Qed.

Lemma filter_venues_sentinels_witness :
  filter_venues_body sample_db (Some "All"%string) None None None None None None
    (Some "OPERATIONAL"%string)
  = filter_venues_body sample_db None None None None None None None
      (Some "OPERATIONAL"%string)
  /\ filter_venues_body sample_db None (Some "All"%string) None None None None None
       (Some "OPERATIONAL"%string)
     = filter_venues_body sample_db None None None None None None None
         (Some "OPERATIONAL"%string)
  /\ filter_venues_body sample_db None None (Some "All"%string) None None None None
       (Some "OPERATIONAL"%string)
     = filter_venues_body sample_db None None None None None None None
         (Some "OPERATIONAL"%string)
  /\ filter_venues_body sample_db None None None (Some "All"%string) None None None
       (Some "OPERATIONAL"%string)
     = filter_venues_body sample_db None None None None None None None
         (Some "OPERATIONAL"%string)
  /\ filter_venues_body sample_db None None None None (Some 0%float) None None
       (Some "OPERATIONAL"%string)
     = filter_venues_body sample_db None None None None None None None
         (Some "OPERATIONAL"%string).
Proof.
  apply (filter_venues_sentinels sample_db None None None None None None None
           (Some "OPERATIONAL"%string) (Some "All"%string) 0%float).
  - right. right. reflexivity.
  - reflexivity.
Defined.

(** X4.  With a positive minimum rating in force, every returned venue has
    a rating, and that rating is not below the minimum: venues without
    rating are left out. *)
Theorem filter_venues_min_rating (db : Database)
        (ward postcode_sector amenity cuisine : option string)
        (m : float) (visited : option bool)
        (interest_status business_status : option string) (v : Venue) :
  PrimFloat.ltb PrimFloat.zero m = true ->
  truthy (VFloat m) = true ->
  In v (filter_venues_body db ward postcode_sector amenity cuisine (Some m)
          visited interest_status business_status) ->
  getattr v "google_rating" <> VNone
  /\ ((exists r, getattr v "google_rating" = VFloat r /\ PrimFloat.leb m r = true)
      \/ (exists z, getattr v "google_rating" = VInt z
                    /\ PrimFloat.leb m (float_of_Z z) = true)).
Proof.
  intros Hpos Htruthy Hin.
  apply filter_venues_body_criteria in Hin as (_ & _ & _ & _ & _ & _ & Hge & _).
  specialize (Hge m eq_refl). rewrite Htruthy, Hpos in Hge.
  specialize (Hge eq_refl). unfold column_ge, sqlite_bind in Hge.
  destruct (PrimFloat.is_nan m);
    destruct (getattr v "google_rating") as [| b | z | r | s | d];
    try discriminate; (split; [discriminate|]).
  - right. exists z. split; [reflexivity | congruence].
  - left. exists r. split; [reflexivity | congruence].
Qed.

Lemma filter_venues_min_rating_witness :
  getattr clifton_high "google_rating" <> VNone
  /\ ((exists r, getattr clifton_high "google_rating" = VFloat r
                 /\ PrimFloat.leb 4.0%float r = true)
      \/ (exists z, getattr clifton_high "google_rating" = VInt z
                    /\ PrimFloat.leb 4.0%float (float_of_Z z) = true)).
Proof.
  apply (filter_venues_min_rating sample_db None None None None 4.0%float None None
           (Some "OPERATIONAL"%string) clifton_high).
  - reflexivity.
  - reflexivity.
  - assert (H : filter_venues_body sample_db None None None None (Some 4.0%float)
                  None None (Some "OPERATIONAL"%string) = [clifton_high])
      by reflexivity.
    rewrite H. left. reflexivity.
Defined.

Lemma filter_if_relax (b b' : bool) (c c' : Venue -> option bool)
      (q q' : list Venue) :
  (b' = true -> b = true /\ c' = c) ->
  q `sublist_of` q' -> filter_if b c q `sublist_of` filter_if b' c' q'.
Proof.
  intros Hb Hq. destruct b'.
  - destruct (Hb eq_refl) as [-> ->]. by apply query_filter_sublist_mono.
  - cbn. etransitivity; [apply filter_if_sublist | exact Hq].
Qed.

(** One stage of the query, its argument [a'] being [a] or left out. *)
Ltac relax_stage H :=
  apply filter_if_relax;
  [ destruct H as [-> | ->];
    [ let Hcond := fresh in intros Hcond; by vm_compute in Hcond
    | by intros ]
  | ].

(** X5.  Leaving criteria out can only add venues: the result of a call is
    a sublist of the result of any call that drops some of its arguments.
    So [filter_venues(visited=True, interest_status='interested')] is a
    sublist of [filter_venues(visited=True)]. *)
Theorem filter_venues_relaxed (db : Database)
        (ward ward' postcode_sector postcode_sector' amenity amenity'
           cuisine cuisine' : option string)
        (min_rating min_rating' : option float) (visited visited' : option bool)
        (interest_status interest_status' business_status business_status'
         : option string) :
  relaxes ward' ward -> relaxes postcode_sector' postcode_sector ->
  relaxes amenity' amenity -> relaxes cuisine' cuisine ->
  relaxes min_rating' min_rating -> relaxes visited' visited ->
  relaxes interest_status' interest_status ->
  relaxes business_status' business_status ->
  filter_venues_body db ward postcode_sector amenity cuisine min_rating visited
    interest_status business_status
  `sublist_of`
  filter_venues_body db ward' postcode_sector' amenity' cuisine' min_rating'
    visited' interest_status' business_status'.
Proof.
  intros Hw Hp Ha Hc Hm Hv Hi Hb. unfold filter_venues_body.
  relax_stage Hi. relax_stage Hv. relax_stage Hm. relax_stage Hc.
  relax_stage Ha. relax_stage Hp. relax_stage Hw. relax_stage Hb.
  reflexivity.
Qed.

Lemma filter_venues_relaxed_witness :
  filter_venues_body sample_db None None None None None (Some true)
    (Some "interested"%string) (Some "OPERATIONAL"%string)
  `sublist_of`
  filter_venues_body sample_db None None None None None (Some true) None
    (Some "OPERATIONAL"%string).
Proof.
  apply (filter_venues_relaxed sample_db); unfold relaxes; auto.
Defined.

(* ====================================================================== *)
(** * More on get_statistics *)
(* ====================================================================== *)

Lemma filter_length_le {A} (p : A -> bool) (l : list A) :
  (length (List.filter p l) <= length l)%nat.
Proof. induction l as [|a l IH]; cbn; [lia|]. destruct (p a); cbn; lia. Qed.

Lemma filter_disjoint_length {A} (p q : A -> bool) (l : list A) :
  (forall a, p a = true -> q a = true -> False) ->
  (length (List.filter p l) + length (List.filter q l) <= length l)%nat.
Proof.
  intros Hpq. induction l as [|a l IH]; cbn; [lia|].
  destruct (p a) eqn:Hp, (q a) eqn:Hq; cbn; try lia.
  exfalso. eauto.
Qed.

(** [get_statistics] returns, and its counts are those of the queries. *)
Lemma get_statistics_Ok (db : Database) :
  exists st,
    get_statistics db = Ok st
    /\ total st = query_count (venues db)
    /\ visited st
       = query_count
           (query_filter (fun v => column_eq (getattr v "visited") (VBool true))
              (venues db))
    /\ not_visited st = total st - visited st
    /\ interested st
       = query_count
           (query_filter
              (fun v => column_eq (getattr v "interest_status") (VStr "interested"))
              (venues db))
    /\ not_interested st
       = query_count
           (query_filter
              (fun v => column_eq (getattr v "interest_status")
                          (VStr "not_interested"))
              (venues db)).
Proof.
  unfold get_statistics.
  set (n := query_count (query_filter _ (venues db))).
  assert (Hn : 0 <= n) by (unfold n, query_count; lia).
  destruct (0 <? n) eqn:Hpos.
  - apply Z.ltb_lt in Hpos. unfold py_truediv.
    destruct (n =? 0) eqn:Hz; [apply Z.eqb_eq in Hz; lia|].
    cbn. eexists. split; [reflexivity|]. cbn. repeat split.
  - cbn. eexists. split; [reflexivity|]. cbn. repeat split.
Qed.

(** X6.  The counts of [get_statistics] are consistent: [total] is the
    number of rows, [visited] lies between 0 and [total], [not_visited] is
    not negative, and the interested and the not-interested venues together
    are at most [total] (no venue is counted in both). *)
Theorem get_statistics_bounds (db : Database) :
  exists st,
    get_statistics db = Ok st
    /\ total st = Z.of_nat (length (get_all_venues db))
    /\ 0 <= visited st <= total st
    /\ 0 <= not_visited st
    /\ total st = visited st + not_visited st
    /\ 0 <= interested st
    /\ 0 <= not_interested st
    /\ interested st + not_interested st <= total st.
Proof.
  destruct (get_statistics_Ok db) as (st & Hst & Ht & Hv & Hn & Hi & Hni).
  exists st. split; [exact Hst|]. rewrite Hn, Ht, Hv, Hi, Hni.
  unfold query_count, query_filter, get_all_venues.
  pose proof (filter_length_le
                (fun v => sql_true (column_eq (getattr v "visited") (VBool true)))
                (venues db)).
  assert (Hdis :
            (length (List.filter
                       (fun v => sql_true (column_eq (getattr v "interest_status")
                                             (VStr "interested"))) (venues db))
             + length (List.filter
                         (fun v => sql_true (column_eq (getattr v "interest_status")
                                               (VStr "not_interested")))
                         (venues db))
             <= length (venues db))%nat).
  { apply filter_disjoint_length. intros v H1 H2.
    destruct (column_eq (getattr v "interest_status") (VStr "interested"))
      as [[|]|] eqn:E1; try discriminate.
    destruct (column_eq (getattr v "interest_status") (VStr "not_interested"))
      as [[|]|] eqn:E2; try discriminate.
    apply column_eq_str in E1. apply column_eq_str in E2. congruence. }
  repeat split; lia.
Qed.

(* ====================================================================== *)
(** * get_pin_color *)
(* ====================================================================== *)

(** X7.  The pin of a venue is red exactly when its [visited] is false or
    unset, whatever its interest status; green exactly when it is visited
    and 'interested'; gray exactly when it is visited and 'not_interested';
    orange exactly when it is visited with any other interest status. *)
Theorem get_pin_color_cases (venue : Venue) :
  (get_pin_color venue = "red"%string
   <-> truthy (getattr venue "visited") = false)
  /\ (get_pin_color venue = "green"%string
      <-> truthy (getattr venue "visited") = true
          /\ getattr venue "interest_status" = VStr "interested")
  /\ (get_pin_color venue = "gray"%string
      <-> truthy (getattr venue "visited") = true
          /\ getattr venue "interest_status" = VStr "not_interested")
  /\ (get_pin_color venue = "orange"%string
      <-> truthy (getattr venue "visited") = true
          /\ getattr venue "interest_status" <> VStr "interested"
          /\ getattr venue "interest_status" <> VStr "not_interested").
Proof.
  unfold get_pin_color, py_eq_str.
  destruct (truthy (getattr venue "visited")); cbn [negb].
  2: { repeat split; try discriminate; intros [? ?]; discriminate. }
  destruct (getattr venue "interest_status") as [| b | z | f | s | d]; cbn;
    try (repeat split; try discriminate; try congruence;
         intros [? ?]; congruence).
  destruct (String.eqb_spec s "interested") as [-> | Hi]; cbn.
  { repeat split; try discriminate; try congruence; intros [? ?]; try congruence.
    tauto. }
  destruct (String.eqb_spec s "not_interested") as [-> | Hn]; cbn.
  { repeat split; try discriminate; try congruence; intros [? ?]; try congruence.
    tauto. }
  repeat split; try discriminate; try congruence; intros [? ?]; congruence.
Qed.

(* ====================================================================== *)
(** * More on update_venue *)
(* ====================================================================== *)

Lemma sqlite_bind_idemp (x : value) : sqlite_bind (sqlite_bind x) = sqlite_bind x.
Proof.
  destruct x as [| | | f | |]; cbn; try reflexivity.
  destruct (PrimFloat.is_nan f) eqn:Hf; cbn; [reflexivity | by rewrite Hf].
Qed.

(** The attributes of an object after the assignments of a dict. *)
Lemma setattr_fold_lookup (updates : list (string * value)) (venue : Venue)
      (k : string) :
  NoDup updates.*1 ->
  (forall x, In (k, x) updates ->
             foldl (fun v kv => setattr v kv.1 kv.2) venue updates !! k = Some x)
  /\ (~ In k updates.*1 ->
      foldl (fun v kv => setattr v kv.1 kv.2) venue updates !! k = venue !! k).
Proof.
  revert venue. induction updates as [|[k' x'] updates IH]; intros venue Hnd.
  - split; [intros x [] | reflexivity].
  - apply NoDup_cons in Hnd as [Hk' Hnd]. cbn [foldl fst snd].
    destruct (IH (setattr venue k' x') Hnd) as [IHin IHout]. split.
    + intros x [[= -> ->] | Hin]; [|by apply IHin].
      rewrite IHout; [by apply lookup_insert_eq|].
      intros Hin. apply Hk'. by apply list_elem_of_In.
    + intros Hout. rewrite IHout by (intros ?; apply Hout; by right).
      unfold setattr. apply lookup_insert_ne. intros ->. apply Hout. by left.
Qed.

Lemma query_first_split (c : Venue -> option bool) (q : list Venue) (old : Venue) :
  query_first (query_filter c q) = Some old ->
  exists before after,
    q = before ++ old :: after
    /\ Forall (fun v => c v <> Some true) before
    /\ c old = Some true.
Proof.
  unfold query_first, query_filter. induction q as [|v q IH]; [discriminate|].
  cbn. destruct (c v) as [[|]|] eqn:Hc; cbn.
  - intros [= <-]. exists [], q. repeat split; [constructor | exact Hc].
  - intros H. destruct (IH H) as (before & after & -> & Hb & Ho).
    exists (v :: before), after. repeat split; [|exact Ho].
    constructor; [congruence | exact Hb].
  - intros H. destruct (IH H) as (before & after & -> & Hb & Ho).
    exists (v :: before), after. repeat split; [|exact Ho].
    constructor; [congruence | exact Hb].
Qed.

Lemma replace_first_split (c : Venue -> option bool) (before after : list Venue)
      (old new : Venue) :
  Forall (fun v => c v <> Some true) before ->
  c old = Some true ->
  replace_first (fun v => sql_true (c v)) new (before ++ old :: after)
  = before ++ new :: after.
Proof.
  intros Hb Ho. induction Hb as [|v before Hv _ IH]; cbn.
  - by rewrite Ho.
  - destruct (c v) as [[|]|]; cbn; [congruence | by rewrite IH | by rewrite IH].
Qed.

Lemma query_first_found (c : Venue -> option bool) (before after : list Venue)
      (v : Venue) :
  Forall (fun v => c v <> Some true) before ->
  c v = Some true ->
  query_first (query_filter c (before ++ v :: after)) = Some v.
Proof.
  intros Hb Hv. unfold query_first, query_filter. rewrite List.filter_app.
  fold (query_filter c before). rewrite (query_filter_nil c before Hb). cbn.
  by rewrite Hv.
Qed.

Lemma update_venue_found (utcnow : nat -> datetime) (db : Database) (venue_id : Z)
      (updates : list (string * value)) (venue : Venue) :
  get_venue_by_id db venue_id = Some venue ->
  exists before after,
    venues db = before ++ venue :: after
    /\ Forall (fun v => column_eq (getattr v "id") (VInt venue_id) <> Some true) before
    /\ getattr venue "id" = VInt venue_id
    /\ update_venue utcnow db venue_id updates
       = (mk_Database (before ++ stored_after utcnow db venue updates :: after)
            (S (clock db)),
          Some (stored_after utcnow db venue updates)).
Proof.
  intros Hget. unfold update_venue. rewrite Hget.
  apply query_first_split in Hget as (before & after & Hv & Hb & Ho).
  exists before, after. rewrite Hv.
  rewrite (replace_first_split
             (fun v => column_eq (getattr v "id") (VInt venue_id))) by assumption.
  repeat split; [exact Hb | by apply column_eq_int].
Qed.

Lemma stored_after_attr (utcnow : nat -> datetime) (db : Database) (venue : Venue)
      (updates : list (string * value)) (k : string) :
  NoDup updates.*1 -> k <> "updated_at"%string ->
  (forall x, In (k, x) updates ->
             getattr (stored_after utcnow db venue updates) k = sqlite_bind x)
  /\ (~ In k updates.*1 ->
      getattr (stored_after utcnow db venue updates) k
      = sqlite_bind (getattr venue k)).
Proof.
  intros Hnd Hk.
  destruct (setattr_fold_lookup updates venue k Hnd) as [Hin Hout].
  split; [intros x Hx | intros Hx]; unfold stored_after, getattr;
    rewrite lookup_fmap; unfold setattr at 1;
    rewrite lookup_insert_ne by congruence.
  - specialize (Hin x Hx). by rewrite Hin.
  - specialize (Hout Hx). rewrite Hout. by destruct (venue !! k).
Qed.



(** X9.  An update touches one row only and can be read back: the table
    keeps its rows and their order, the row of the venue is replaced by the
    stored record, one reading of the clock is made, and (when the dict does
    not assign [id]) looking the id up afterwards returns the stored
    record. *)
Theorem update_venue_frame (utcnow : nat -> datetime) (db : Database)
        (venue_id : Z) (updates : list (string * value)) (venue : Venue) :
  NoDup updates.*1 -> ~ In "id"%string updates.*1 ->
  get_venue_by_id db venue_id = Some venue ->
  exists before after stored,
    venues db = before ++ venue :: after
    /\ update_venue utcnow db venue_id updates
       = (mk_Database (before ++ stored :: after) (S (clock db)), Some stored)
    /\ get_venue_by_id (update_venue utcnow db venue_id updates).1 venue_id
       = Some stored.
Proof.
  intros Hnd Hid Hget.
  destruct (update_venue_found utcnow db venue_id updates venue Hget)
    as (before & after & Hv & Hb & Hkey & Hupd).
  exists before, after, (stored_after utcnow db venue updates).
  split; [exact Hv|]. split; [exact Hupd|].
  rewrite Hupd. unfold get_venue_by_id. cbn [fst venues].
  apply query_first_found; [exact Hb|].
  destruct (stored_after_attr utcnow db venue updates "id" Hnd) as [_ Hout];
    [discriminate|].
  rewrite (Hout Hid), Hkey. cbn. by rewrite Z.eqb_refl.
Qed.

Lemma update_venue_frame_witness :
  exists before after stored,
    venues sample_db = before ++ clifton_high :: after
    /\ update_venue sample_clock sample_db 1 sample_updates
       = (mk_Database (before ++ stored :: after) (S (clock sample_db)), Some stored)
    /\ get_venue_by_id (update_venue sample_clock sample_db 1 sample_updates).1 1
       = Some stored.
Proof.
  apply (update_venue_frame sample_clock sample_db 1 sample_updates clifton_high).
  - cbn. repeat constructor; rewrite ?elem_of_cons, ?elem_of_nil;
      intuition discriminate.
  - cbn. intuition discriminate.
  - reflexivity.
Defined.

(* ====================================================================== *)
(** * Survey actions *)
(* ====================================================================== *)

Lemma NoDup_visited_updates (now : datetime) (choice notes : string) :
  NoDup (visited_updates now choice notes).*1.
Proof.
  cbn. repeat constructor; rewrite ?elem_of_cons, ?elem_of_nil;
    intuition discriminate.
Qed.

Lemma NoDup_edit_updates (choice notes : string) :
  NoDup (edit_updates choice notes).*1.
Proof.
  cbn. repeat constructor; rewrite ?elem_of_cons, ?elem_of_nil;
    intuition discriminate.
Qed.

Lemma choice_interest (choice : string) :
  choice = "Interested"%string \/ choice = "Not Interested"%string ->
  str_replace " " "_" (str_lower choice) = interest_of_choice choice.
Proof. intros [-> | ->]; reflexivity. Qed.

Lemma get_pin_color_visited (venue : Venue) (choice : string) :
  truthy (getattr venue "visited") = true ->
  getattr venue "interest_status" = VStr (interest_of_choice choice) ->
  get_pin_color venue = pin_of_choice choice.
Proof.
  intros Hv Hi. unfold get_pin_color, py_eq_str, interest_of_choice, pin_of_choice in *.
  rewrite Hv, Hi. by destruct (String.eqb choice "Interested").
Qed.

(** X10.  Saving "Mark as Visited" for a listed venue with one of the two
    labels of the radio stores the venue as visited at the time of the
    click, with the interest status of the label and the notes typed; its
    pin turns green for "Interested" and gray for "Not Interested" (never
    red or orange), and its export row carries the visit date. *)
Theorem mark_as_visited_stored (utcnow : nat -> datetime) (db : Database)
        (venue_id : Z) (now : datetime) (interest_choice notes : string)
        (venue : Venue) :
  get_venue_by_id db venue_id = Some venue ->
  interest_choice = "Interested"%string \/ interest_choice = "Not Interested"%string ->
  exists stored,
    (mark_as_visited utcnow db venue_id now interest_choice notes).2 = Some stored
    /\ In stored (venues (mark_as_visited utcnow db venue_id now interest_choice notes).1)
    /\ getattr stored "visited" = VBool true
    /\ getattr stored "visit_date" = VDateTime now
    /\ getattr stored "interest_status" = VStr (interest_of_choice interest_choice)
    /\ getattr stored "notes" = VStr notes
    /\ get_pin_color stored = pin_of_choice interest_choice
    /\ exists record,
        export_record stored = Ok record
        /\ record_get record "Visit Date" = Some (VStr (strftime_export now)).
Proof.
  intros Hget Hchoice. unfold mark_as_visited.
  destruct (update_venue_found utcnow db venue_id
              (visited_updates now interest_choice notes) venue Hget)
    as (before & after & _ & _ & _ & ->).
  set (stored := stored_after utcnow db venue _).
  assert (Hattr : forall k x, k <> "updated_at"%string ->
                    In (k, x) (visited_updates now interest_choice notes) ->
                    getattr stored k = sqlite_bind x).
  { intros k x Hk. by apply stored_after_attr; [apply NoDup_visited_updates|]. }
  assert (Hv : getattr stored "visited" = VBool true)
    by (apply (Hattr _ (VBool true)); [discriminate | cbn; tauto]).
  assert (Hd : getattr stored "visit_date" = VDateTime now)
    by (apply (Hattr _ (VDateTime now)); [discriminate | cbn; tauto]).
  assert (Hi : getattr stored "interest_status"
               = VStr (interest_of_choice interest_choice)).
  { rewrite <- (choice_interest _ Hchoice).
    apply (Hattr _ (VStr _)); [discriminate | cbn; tauto]. }
  assert (Hn : getattr stored "notes" = VStr notes)
    by (apply (Hattr _ (VStr notes)); [discriminate | cbn; tauto]).
  exists stored. cbn [fst snd venues].
  split; [reflexivity|]. split; [apply in_or_app; right; by left|].
  repeat (split; [assumption|]).
  split; [apply get_pin_color_visited; [by rewrite Hv | exact Hi]|].
  unfold export_record. rewrite Hd. cbn -[getattr].
  eexists. split; reflexivity.
Qed.

Lemma mark_as_visited_stored_witness :
  exists stored,
    (mark_as_visited sample_clock sample_db 2 sample_now "Not Interested"
       "no evening service").2 = Some stored
    /\ In stored (venues (mark_as_visited sample_clock sample_db 2 sample_now
                           "Not Interested" "no evening service").1)
    /\ getattr stored "visited" = VBool true
    /\ getattr stored "visit_date" = VDateTime sample_now
    /\ getattr stored "interest_status" = VStr (interest_of_choice "Not Interested")
    /\ getattr stored "notes" = VStr "no evening service"
    /\ get_pin_color stored = pin_of_choice "Not Interested"
    /\ exists record,
        export_record stored = Ok record
        /\ record_get record "Visit Date" = Some (VStr (strftime_export sample_now)).
Proof.
  apply (mark_as_visited_stored sample_clock sample_db 2 sample_now "Not Interested"
           "no evening service" clifton_low).
  - reflexivity.
  - right. reflexivity.
Defined.

(** X11.  Updating "Edit Venue Status" of a visited venue changes its
    interest status and notes only ([updated_at] apart): the venue stays
    visited with the same visit date, and its pin is green or gray as the
    label chosen. *)
Theorem edit_status_stored (utcnow : nat -> datetime) (db : Database)
        (venue_id : Z) (new_interest new_notes : string) (venue : Venue) :
  get_venue_by_id db venue_id = Some venue ->
  getattr venue "visited" = VBool true ->
  new_interest = "Interested"%string \/ new_interest = "Not Interested"%string ->
  exists stored,
    (edit_status utcnow db venue_id new_interest new_notes).2 = Some stored
    /\ getattr stored "interest_status" = VStr (interest_of_choice new_interest)
    /\ getattr stored "notes" = VStr new_notes
    /\ (forall k, k <> "updated_at"%string -> k <> "interest_status"%string ->
                  k <> "notes"%string ->
                  getattr stored k = sqlite_bind (getattr venue k))
    /\ get_pin_color stored = pin_of_choice new_interest.
Proof.
  intros Hget Hvisited Hchoice. unfold edit_status.
  destruct (update_venue_found utcnow db venue_id
              (edit_updates new_interest new_notes) venue Hget)
    as (before & after & _ & _ & _ & ->).
  set (stored := stored_after utcnow db venue _).
  pose proof (fun k Hk => stored_after_attr utcnow db venue
                (edit_updates new_interest new_notes) k
                (NoDup_edit_updates _ _) Hk) as Hattr.
  fold stored in Hattr.
  assert (Hi : getattr stored "interest_status"
               = VStr (interest_of_choice new_interest)).
  { rewrite <- (choice_interest _ Hchoice).
    apply (proj1 (Hattr "interest_status"%string ltac:(discriminate)) (VStr _)).
    cbn. tauto. }
  assert (Hframe : forall k, k <> "updated_at"%string -> k <> "interest_status"%string ->
                     k <> "notes"%string ->
                     getattr stored k = sqlite_bind (getattr venue k)).
  { intros k Hk Hki Hkn. apply (proj2 (Hattr k Hk)). cbn. intuition congruence. }
  exists stored. cbn [snd]. split; [reflexivity|]. split; [exact Hi|].
  split.
  { apply (proj1 (Hattr "notes"%string ltac:(discriminate)) (VStr new_notes)).
    cbn. tauto. }
  split; [exact Hframe|].
  apply get_pin_color_visited; [|exact Hi].
  rewrite Hframe by discriminate. by rewrite Hvisited.
Qed.

Lemma edit_status_stored_witness :
  exists stored,
    (edit_status sample_clock surveyed_db 2 "Interested" "called back").2
    = Some stored
    /\ getattr stored "interest_status" = VStr (interest_of_choice "Interested")
    /\ getattr stored "notes" = VStr "called back"
    /\ (forall k, k <> "updated_at"%string -> k <> "interest_status"%string ->
                  k <> "notes"%string ->
                  getattr stored k
                  = sqlite_bind
                      (getattr (surveyed_venue 2 "Clifton" "OPERATIONAL" true
                                  (VStr "not_interested")) k))
    /\ get_pin_color stored = pin_of_choice "Interested".
Proof.
  apply (edit_status_stored sample_clock surveyed_db 2 "Interested" "called back"
           (surveyed_venue 2 "Clifton" "OPERATIONAL" true (VStr "not_interested")));
    [reflexivity | reflexivity | left; reflexivity].
Defined.

(* ====================================================================== *)
(** * Invariants of import_from_csv *)
(* ====================================================================== *)

Lemma next_id_above (rows : list Venue) (v : Venue) (i : Z) :
  In v rows -> getattr v "id" = VInt i -> i < next_id rows.
Proof.
  unfold next_id. induction rows as [|u rows IH]; [intros []|].
  intros [-> | Hin] Hi; cbn.
  - rewrite Hi. lia.
  - specialize (IH Hin Hi). destruct (getattr u "id"); lia.
Qed.

Lemma well_keyed_snoc (rows : list Venue) (v : Venue) :
  well_keyed rows -> getattr v "id" = VInt (next_id rows) ->
  well_keyed (rows ++ [v]).
Proof.
  intros (ids & Hids & Hnd) Hv. exists (ids ++ [next_id rows]).
  unfold primary_keys in *. rewrite !map_app, Hids. cbn. rewrite Hv.
  split; [reflexivity|].
  apply NoDup_app. split; [exact Hnd|]. split; [|apply NoDup_singleton].
  intros i Hi Hnext. apply list_elem_of_singleton in Hnext as ->.
  apply list_elem_of_In in Hi.
  assert (Hin : In (VInt (next_id rows)) (map VInt ids)) by by apply in_map.
  rewrite <- Hids in Hin. apply in_map_iff in Hin as (u & Hu & Huin).
  pose proof (next_id_above rows u _ Huin Hu). lia.
Qed.

Lemma find_by_place_id_None (db : Database) (s : string) :
  find_by_place_id db (VStr s) = None -> ~ In s (place_ids (venues db)).
Proof.
  unfold find_by_place_id, query_first, query_filter, place_ids.
  induction (venues db) as [|v rows IH]; cbn; [tauto|].
  destruct (getattr v "google_place_id") as [| | | | s' |] eqn:Hk;
    cbn; rewrite ?Hk; cbn; try exact IH.
  destruct (String.eqb_spec s' s) as [-> | Hne]; cbn; [discriminate|].
  intros Hfind [-> | Hin]; [done | by apply IH].
Qed.
Section ImportInvariants.
Variable utcnow : nat -> datetime.
Variable parse_float : string -> option float.
Variable parse_int : string -> option Z.

Local Abbreviation import_one := (import_row utcnow parse_float parse_int).
Local Abbreviation import_all := (import_loop utcnow parse_float parse_int).

Lemma insert_row_id (db : Database) (venue : Venue) :
  getattr (insert_row utcnow db venue).1 "id" = VInt (next_id (venues db)).
Proof.
  unfold insert_row, getattr. cbn [fst]. rewrite lookup_fmap.
  rewrite (fire_defaults_keep utcnow _ _ _ (VInt (next_id (venues db))));
    [reflexivity|].
  cbn. unfold setattr. by rewrite lookup_insert_eq.
Qed.

(** What one iteration that adds a record does to the table. *)
Lemma import_row_added_row (db db' : Database) (row : Row) :
  import_one db row = Ok (Added db') ->
  find_by_place_id db (row_get row "google_place_id") = None
  /\ exists venue,
      venues db' = venues db ++ [venue]
      /\ getattr venue "id" = VInt (next_id (venues db))
      /\ getattr venue "google_place_id"
         = sqlite_bind (row_get row "google_place_id")
      /\ survey_defaults venue.
Proof.
  unfold import_row.
  destruct (find_by_place_id db _) eqn:Hfind; [discriminate|].
  destruct (eval_kwargs _) as [kwargs|e] eqn:Hk; cbn [bind]; [|discriminate].
  intros [= <-]. split; [reflexivity|].
  exists (insert_row utcnow db (Venue_new kwargs)).1.
  split; [reflexivity|]. split; [apply insert_row_id|]. split.
  - apply insert_row_place_id.
    apply eval_kwargs_head in Hk as [l' ->].
    unfold Venue_new. cbn [list_to_map foldr fst snd]. by rewrite lookup_insert_eq.
  - apply insert_row_survey_defaults;
      apply (Venue_kwargs_no_survey parse_float parse_int row); try exact Hk;
      rewrite !elem_of_cons; tauto.
Qed.

End ImportInvariants.

Lemma place_ids_snoc (rows : list Venue) (v : Venue) :
  place_ids (rows ++ [v])
  = place_ids rows ++ match getattr v "google_place_id" with
                      | VStr s => [s]
                      | _ => []
                      end.
Proof.
  unfold place_ids. rewrite omap_app. cbn.
  by destruct (getattr v "google_place_id").
Qed.

Lemma query_filter_app (c : Venue -> option bool) (q1 q2 : list Venue) :
  query_filter c (q1 ++ q2) = query_filter c q1 ++ query_filter c q2.
Proof. unfold query_filter. apply List.filter_app. Qed.

Lemma survey_defaults_not_counted (added : list Venue) :
  Forall survey_defaults added ->
  query_filter (fun v => column_eq (getattr v "visited") (VBool true)) added = []
  /\ query_filter
       (fun v => column_eq (getattr v "interest_status") (VStr "interested")) added
     = []
  /\ query_filter
       (fun v => column_eq (getattr v "interest_status") (VStr "not_interested"))
       added = [].
Proof.
  intros Hs. repeat split; apply query_filter_nil;
    (eapply Forall_impl; [exact Hs|]); intros v (Hv & _ & Hi & _);
    rewrite ?Hv, ?Hi; discriminate.
Qed.

Section ImportKeys.
Variable utcnow : nat -> datetime.
Variable parse_float : string -> option float.
Variable parse_int : string -> option Z.

Local Abbreviation import_one := (import_row utcnow parse_float parse_int).
Local Abbreviation import_all := (import_loop utcnow parse_float parse_int).

Lemma import_loop_invariants (rows : list Row) (db : Database) (count errors : Z) :
  well_keyed (venues db) -> NoDup (place_ids (venues db)) ->
  well_keyed (venues (import_all rows db count errors).1)
  /\ NoDup (place_ids (venues (import_all rows db count errors).1)).
Proof.
  revert db count errors.
  induction rows as [|row rows IH]; intros db count errors Hkeys Hids; cbn.
  - by split.
  - destruct (import_one db row) as [[|db']|e] eqn:Hrow; [by apply IH | | by apply IH].
    apply import_row_added_row in Hrow
      as (Hfind & venue & Hv & Hid & Hplace & _).
    apply IH; rewrite Hv.
    + by apply well_keyed_snoc.
    + rewrite place_ids_snoc, Hplace.
      destruct (row_get row "google_place_id") as [| | | f | s |]; cbn;
        rewrite ?app_nil_r; try exact Hids.
      * destruct (PrimFloat.is_nan f); cbn; by rewrite app_nil_r.
      * apply NoDup_app. split; [exact Hids|]. split; [|apply NoDup_singleton].
        intros s' Hs' Hin. apply list_elem_of_singleton in Hin as ->.
        apply (find_by_place_id_None db s Hfind). by apply list_elem_of_In.
Qed.

(** X12.  The import keeps the keys of the table sound: if the primary
    keys are distinct integers and no two records share a
    [google_place_id], the same holds after the import, whatever the rows
    of the file (repeated or already stored identity keys included). *)
Theorem import_from_csv_keeps_keys (db : Database) (df : list Row) :
  well_keyed (venues db) -> NoDup (place_ids (venues db)) ->
  well_keyed (venues (import_from_csv utcnow parse_float parse_int db df).1)
  /\ NoDup (place_ids (venues (import_from_csv utcnow parse_float parse_int db df).1)).
Proof. apply import_loop_invariants. Qed.

Lemma import_loop_counters (rows : list Row) (db : Database) (count errors : Z) :
  count <= (import_all rows db count errors).2.1
  /\ errors <= (import_all rows db count errors).2.2
  /\ ((import_all rows db count errors).2.1 - count)
     + ((import_all rows db count errors).2.2 - errors)
     <= Z.of_nat (length rows).
Proof.
  revert db count errors.
  induction rows as [|row rows IH]; intros db count errors; cbn [import_loop].
  - cbn. lia.
  - destruct (import_one db row) as [[|db']|e].
    + specialize (IH db count errors). cbn [length]. lia.
    + specialize (IH db' (count + 1) errors). cbn [length]. lia.
    + specialize (IH db count (errors + 1)). cbn [length]. lia.
Qed.

(** X13.  Every row of the file is counted at most once: the two counters
    returned by the import are not negative and their sum is at most the
    number of rows (the rest are the rows skipped as already stored); an
    empty file gives (0, 0). *)
Theorem import_from_csv_counters (db : Database) (df : list Row) :
  0 <= (import_from_csv utcnow parse_float parse_int db df).2.1
  /\ 0 <= (import_from_csv utcnow parse_float parse_int db df).2.2
  /\ (import_from_csv utcnow parse_float parse_int db df).2.1
     + (import_from_csv utcnow parse_float parse_int db df).2.2
     <= Z.of_nat (length df)
  /\ (import_from_csv utcnow parse_float parse_int db []).2 = (0, 0).
Proof.
  pose proof (import_loop_counters df db 0 0) as H. unfold import_from_csv.
  repeat split; try lia.
Qed.

(** X14.  An import changes the statistics by its imported count only:
    [total] and [not_visited] grow by the imported count, while [visited],
    [interested] and [not_interested] stay as they were. *)
Theorem import_from_csv_statistics (db : Database) (df : list Row) :
  exists before after,
    get_statistics db = Ok before
    /\ get_statistics (import_from_csv utcnow parse_float parse_int db df).1 = Ok after
    /\ total after
       = total before + (import_from_csv utcnow parse_float parse_int db df).2.1
    /\ not_visited after
       = not_visited before + (import_from_csv utcnow parse_float parse_int db df).2.1
    /\ visited after = visited before
    /\ interested after = interested before
    /\ not_interested after = not_interested before.
Proof.
  destruct (get_statistics_Ok db) as (before & Hb & Hbt & Hbv & Hbn & Hbi & Hbni).
  destruct (get_statistics_Ok (import_from_csv utcnow parse_float parse_int db df).1)
    as (after & Ha & Hat & Hav & Han & Hai & Hani).
  exists before, after. split; [exact Hb|]. split; [exact Ha|].
  destruct (import_loop_appends utcnow parse_float parse_int df db 0 0)
    as (added & Hadd & Hs & Hc).
  unfold import_from_csv in *. rewrite Hadd in Hat, Hav, Hai, Hani.
  rewrite !query_filter_app in *.
  destruct (survey_defaults_not_counted added Hs) as (E1 & E2 & E3).
  rewrite E1 in Hav. rewrite E2 in Hai. rewrite E3 in Hani.
  rewrite app_nil_r in *. unfold query_count in *. rewrite length_app in Hat.
  rewrite Hc. lia.
Qed.
End ImportKeys.

Lemma well_keyed_surveyed_db : well_keyed (venues surveyed_db).
Proof.
  exists [1; 2; 3; 4]. split; [reflexivity|].
  apply (bool_decide_unpack _). reflexivity.
Defined.

Lemma place_ids_surveyed_db : NoDup (place_ids (venues surveyed_db)).
Proof.
  assert (H : place_ids (venues surveyed_db)
              = ["ChIJ-1"; "ChIJ-2"; "ChIJ-3"; "ChIJ-4"]%string) by reflexivity.
  rewrite H. apply (bool_decide_unpack _). reflexivity.
Defined.

Lemma import_from_csv_keeps_keys_witness :
  well_keyed (venues (import_from_csv sample_clock no_float no_int surveyed_db
                        sample_rows).1)
  /\ NoDup (place_ids (venues (import_from_csv sample_clock no_float no_int
                                 surveyed_db sample_rows).1)).
Proof.
  apply (import_from_csv_keeps_keys sample_clock no_float no_int surveyed_db
           sample_rows).
  - exact well_keyed_surveyed_db.
  - exact place_ids_surveyed_db.
Defined.

(* ====================================================================== *)
(** * Reset of the survey data *)
(* ====================================================================== *)

Lemma column_eq_int_iff (col : value) (i : Z) :
  column_eq col (VInt i) = Some true <-> col = VInt i.
Proof.
  split; [apply column_eq_int|]. intros ->. cbn. by rewrite Z.eqb_refl.
Qed.

Lemma Forall2_compose {A} (P Q R : A -> A -> Prop) (l1 l2 l3 : list A) :
  (forall a b c, P a b -> Q b c -> R a c) ->
  Forall2 P l1 l2 -> Forall2 Q l2 l3 -> Forall2 R l1 l3.
Proof.
  intros HPQ H12. revert l3.
  induction H12 as [|a b l1 l2 Hab _ IH]; intros l3 H23;
    inversion H23; subst; constructor; eauto.
Qed.

Lemma Forall2_same {A} (P : A -> A -> Prop) (l : list A) :
  (forall a, In a l -> P a a) -> Forall2 P l l.
Proof.
  induction l as [|a l IH]; intros H; constructor.
  - apply H. by left.
  - apply IH. intros b Hb. apply H. by right.
Qed.

(** On a well-keyed table an update rewrites the row of the id, and no
    other row. *)
Lemma update_venue_pointwise (utcnow : nat -> datetime) (db : Database)
      (venue_id : Z) (updates : list (string * value)) :
  well_keyed (venues db) ->
  Forall2 (fun v v' =>
             (getattr v "id" = VInt venue_id
              /\ v' = stored_after utcnow db v updates)
             \/ (getattr v "id" <> VInt venue_id /\ v' = v))
          (venues db) (venues (update_venue utcnow db venue_id updates).1).
Proof.
  intros (ids & Hids & Hnd).
  destruct (get_venue_by_id db venue_id) as [venue|] eqn:Hget.
  - destruct (update_venue_found utcnow db venue_id updates venue Hget)
      as (before & after & Hv & Hb & Hkey & ->).
    cbn [fst venues]. rewrite Hv. apply Forall2_app; [|constructor].
    + apply Forall2_same. intros v Hin. right. split; [|reflexivity].
      rewrite Forall_forall in Hb. intros Hid.
      apply (Hb v); [by apply list_elem_of_In|]. by apply column_eq_int_iff.
    + left. by split.
    + apply Forall2_same. intros v Hin. right. split; [|reflexivity].
      intros Hid. unfold primary_keys in Hids. rewrite Hv in Hids.
      rewrite map_app in Hids. cbn in Hids. rewrite Hkey in Hids.
      apply (in_map (fun v => getattr v "id")) in Hin. rewrite Hid in Hin.
      clear Hv Hget Hb Hid Hkey.
      revert ids Hids Hnd.
      induction before as [|u before IH]; intros ids Hids Hnd.
      * destruct ids as [|i ids]; [discriminate|]. cbn in Hids.
        injection Hids as <- Hids. apply NoDup_cons in Hnd as [Hnot _].
        apply Hnot. rewrite Hids in Hin. apply in_map_iff in Hin as (j & [= ->] & Hj).
        by apply list_elem_of_In.
      * destruct ids as [|i ids]; [discriminate|]. cbn in Hids.
        injection Hids as _ Hids. apply NoDup_cons in Hnd as [_ Hnd]. eauto.
  - unfold update_venue. rewrite Hget. cbn [fst].
    apply Forall2_same. intros v Hin. right. split; [|reflexivity].
    intros Hid. unfold get_venue_by_id, query_first, query_filter in Hget.
    assert (Hf : In v (List.filter
                         (fun v => sql_true (column_eq (getattr v "id") (VInt venue_id)))
                         (venues db))).
    { apply filter_In. split; [exact Hin|]. rewrite Hid. cbn. by rewrite Z.eqb_refl. }
    destruct (List.filter _ (venues db)); [destruct Hf | discriminate].
Qed.

Lemma NoDup_reset_updates : NoDup reset_updates.*1.
Proof.
  cbn. repeat constructor; rewrite ?elem_of_cons, ?elem_of_nil;
    intuition discriminate.
Qed.

(** The record stored by a reset. *)
Lemma stored_after_reset (utcnow : nat -> datetime) (db : Database) (v : Venue) :
  survey_defaults (stored_after utcnow db v reset_updates)
  /\ same_outside reset_keys v (stored_after utcnow db v reset_updates)
  /\ getattr (stored_after utcnow db v reset_updates) "id"
     = sqlite_bind (getattr v "id").
Proof.
  pose proof (fun k Hk => stored_after_attr utcnow db v reset_updates k
                NoDup_reset_updates Hk) as Hattr.
  split; [|split].
  - unfold survey_defaults.
    refine (conj _ (conj _ (conj _ (conj _ _)))).
    + apply (proj1 (Hattr "visited"%string ltac:(discriminate)) (VBool false)).
      cbn. tauto.
    + apply (proj1 (Hattr "visit_date"%string ltac:(discriminate)) VNone).
      cbn. tauto.
    + apply (proj1 (Hattr "interest_status"%string ltac:(discriminate)) VNone).
      cbn. tauto.
    + apply (proj1 (Hattr "is_priority"%string ltac:(discriminate)) (VBool false)).
      cbn. tauto.
    + apply (proj1 (Hattr "notes"%string ltac:(discriminate)) VNone).
      cbn. tauto.
  - intros k Hk.
    rewrite (proj2 (Hattr k ltac:(intros ->; apply Hk; cbn; tauto)));
      [apply sqlite_bind_idemp|].
    intros Hin. apply Hk. cbn in *. tauto.
  - apply (proj2 (Hattr "id"%string ltac:(discriminate))).
    cbn. intuition discriminate.
Qed.

Lemma reset_loop (utcnow : nat -> datetime) (todo : list Venue) (db : Database) :
  well_keyed (venues db) ->
  Forall2 (reset_relation todo) (venues db)
    (venues
       (foldl (fun db' venue =>
                 match getattr venue "id" with
                 | VInt venue_id => (update_venue utcnow db' venue_id reset_updates).1
                 | _ => db'
                 end)
              db todo)).
Proof.
  revert db. induction todo as [|w todo IH]; intros db Hkeys.
  - cbn. apply Forall2_same. intros v _.
    refine (conj _ (conj _ (conj _ _))); try done.
    by intros (w & i & [] & _).
  - cbn [foldl].
    set (db1 := match getattr w "id" with
                | VInt venue_id => (update_venue utcnow db venue_id reset_updates).1
                | _ => db
                end).
    assert (Hstep : Forall2 (reset_relation [w]) (venues db) (venues db1)).
    { unfold db1. destruct (getattr w "id") as [| | i | | |] eqn:Hw;
        try (apply Forall2_same; intros v _;
             refine (conj _ (conj _ (conj _ _))); try done;
             intros (w' & i' & [<- | []] & Hi' & _); congruence).
      eapply Forall2_impl; [by apply update_venue_pointwise|].
      intros v v' [[Hid ->] | [Hid ->]].
      - destruct (stored_after_reset utcnow db v) as (Hs & Hf & Hi).
        refine (conj _ (conj _ (conj _ _))); try done. by rewrite Hi, Hid.
      - refine (conj _ (conj _ (conj _ _))); try done.
        intros (w' & i' & [<- | []] & Hi' & Hv). congruence. }
    assert (Hkeys1 : well_keyed (venues db1)).
    { destruct Hkeys as (ids & Hids & Hnd). exists ids. split; [|exact Hnd].
      rewrite <- Hids. unfold primary_keys. clear -Hstep.
      induction Hstep as [|v v' l l' (Hid & _) _ IHl]; [reflexivity|].
      cbn. by rewrite Hid, IHl. }
    eapply Forall2_compose; [|exact Hstep | exact (IH db1 Hkeys1)].
    intros a b c (Hid1 & Hf1 & Hs1 & Hp1) (Hid2 & Hf2 & Hs2 & Hp2).
    refine (conj _ (conj _ (conj _ _))).
    + congruence.
    + intros k Hk. rewrite (Hf2 k Hk). by apply Hf1.
    + intros (w' & i & [<- | Hin] & Hw' & Ha).
      * apply Hp2, Hs1. exists w, i. split; [by left | by split].
      * apply Hs2. exists w', i. split; [done | split; [done | congruence]].
    + eauto.
Qed.

Lemma reset_relation_all (todo l l' : list Venue) :
  Forall2 (reset_relation todo) l l' ->
  Forall (fun v => exists w i,
              In w todo /\ getattr w "id" = VInt i /\ getattr v "id" = VInt i) l ->
  Forall survey_defaults l'.
Proof.
  induction 1 as [|v v' l l' (_ & _ & Hs & _) _ IH]; intros Hall; constructor.
  - apply Forall_cons in Hall as [Hv _]. by apply Hs.
  - apply Forall_cons in Hall as [_ Hall]. by apply IH.
Qed.

(** X16.  "Reset All Survey Data" on a well-keyed table keeps every row
    and its key, puts the survey fields of every venue back to their
    defaults and leaves every other attribute ([updated_at] apart) as it
    was stored; afterwards the statistics count no visited, no interested
    and no not-interested venue. *)
Theorem reset_survey_data_resets (utcnow : nat -> datetime) (db : Database) :
  well_keyed (venues db) ->
  Forall survey_defaults (venues (reset_survey_data utcnow db))
  /\ primary_keys (venues (reset_survey_data utcnow db)) = primary_keys (venues db)
  /\ Forall2 (same_outside reset_keys) (venues db)
       (venues (reset_survey_data utcnow db))
  /\ exists st,
      get_statistics (reset_survey_data utcnow db) = Ok st
      /\ total st = Z.of_nat (length (venues db))
      /\ visited st = 0 /\ interested st = 0 /\ not_interested st = 0.
Proof.
  intros Hkeys. unfold reset_survey_data, get_all_venues.
  pose proof (reset_loop utcnow (venues db) db Hkeys) as Hloop.
  set (db' := foldl _ db (venues db)) in *.
  assert (Hdefaults : Forall survey_defaults (venues db')).
  { apply (reset_relation_all (venues db) (venues db) _ Hloop).
    destruct Hkeys as (ids & Hids & _).
    apply Forall_forall. intros v Hv. apply list_elem_of_In in Hv.
    pose proof (in_map (fun v => getattr v "id") _ _ Hv) as Hid.
    unfold primary_keys in Hids. rewrite Hids in Hid.
    apply in_map_iff in Hid as (i & Hi & _). exists v, i. by repeat split. }
  split; [exact Hdefaults|]. split; [|split].
  - unfold primary_keys. clear -Hloop.
    induction Hloop as [|v v' l l' (Hid & _) _ IHl]; [reflexivity|].
    cbn. by rewrite Hid, IHl.
  - eapply Forall2_impl; [exact Hloop|]. by intros v v' (_ & Hf & _).
  - destruct (get_statistics_Ok db') as (st & Hst & Ht & Hv & _ & Hi & Hni).
    exists st. split; [exact Hst|].
    destruct (survey_defaults_not_counted _ Hdefaults) as (E1 & E2 & E3).
    rewrite E1 in Hv. rewrite E2 in Hi. rewrite E3 in Hni.
    rewrite Ht. unfold query_count. rewrite <- (Forall2_length _ _ _ Hloop).
    by repeat split.
Qed.

Lemma reset_survey_data_resets_witness :
  Forall survey_defaults (venues (reset_survey_data sample_clock surveyed_db))
  /\ primary_keys (venues (reset_survey_data sample_clock surveyed_db))
     = primary_keys (venues surveyed_db)
  /\ Forall2 (same_outside reset_keys) (venues surveyed_db)
       (venues (reset_survey_data sample_clock surveyed_db))
  /\ exists st,
      get_statistics (reset_survey_data sample_clock surveyed_db) = Ok st
      /\ total st = Z.of_nat (length (venues surveyed_db))
      /\ visited st = 0 /\ interested st = 0 /\ not_interested st = 0.
Proof.
  apply (reset_survey_data_resets sample_clock surveyed_db).
  exact well_keyed_surveyed_db.
Defined.

(* ====================================================================== *)
(** * Type coercion of the import *)
(* ====================================================================== *)





Section Coercion.
Variable utcnow : nat -> datetime.
Variable parse_float : string -> option float.
Variable parse_int : string -> option Z.


End Coercion.


(* ====================================================================== *)
(** * get_ward_statistics *)
(* ====================================================================== *)

Lemma group_eqb_typed (a b : value) :
  ward_typed a -> ward_typed b -> group_eqb a b = true <-> a = b.
Proof.
  intros [-> | [s ->]] [-> | [s' ->]]; cbn; try (split; [discriminate | congruence]).
  - tauto.
  - rewrite String.eqb_eq. split; congruence.
Qed.

Lemma NoDup_List_filter {A} (p : A -> bool) (l : list A) :
  NoDup l -> NoDup (List.filter p l).
Proof.
  induction 1 as [|a l Ha _ IH]; cbn; [constructor|].
  destruct (p a); [|exact IH]. constructor; [|exact IH].
  intros Hin. apply Ha. apply list_elem_of_In in Hin.
  apply filter_In in Hin as [Hin _]. by apply list_elem_of_In.
Qed.

Lemma group_keys_spec (keys : list value) :
  Forall ward_typed keys ->
  NoDup (group_keys keys) /\ (forall k, In k (group_keys keys) <-> In k keys).
Proof.
  induction 1 as [|k keys Hk Hkeys [IHnd IHin]]; cbn.
  - split; [constructor | tauto].
  - split.
    + constructor; [|by apply NoDup_List_filter].
      rewrite list_elem_of_In, filter_In. intros [_ Hneg].
      rewrite (proj2 (group_eqb_typed k k Hk Hk) eq_refl) in Hneg. discriminate.
    + intros k'. rewrite filter_In, IHin. split.
      * intros [-> | [Hin _]]; tauto.
      * intros [-> | Hin]; [tauto|].
        destruct (group_eqb k k') eqn:E; [|right; by split].
        left. apply group_eqb_typed in E; [done | done |].
        rewrite Forall_forall in Hkeys. by apply Hkeys, list_elem_of_In.
Qed.

Lemma sum_over_ward_group (f : Venue -> Z) (v : Venue) (rows : list Venue)
      (ward : value) :
  sum_over f (ward_group (v :: rows) ward)
  = (if group_eqb (getattr v "search_ward") ward then f v else 0)
    + sum_over f (ward_group rows ward).
Proof.
  unfold ward_group, sum_over. cbn [List.filter].
  destruct (group_eqb (getattr v "search_ward") ward); cbn [foldr]; lia.
Qed.

(** A key of a duplicate-free list is matched once. *)
Lemma matched_once (x : Z) (w : value) (keys : list value) :
  NoDup keys -> Forall ward_typed keys -> ward_typed w -> In w keys ->
  foldr (fun k acc => (if group_eqb w k then x else 0) + acc) 0 keys = x.
Proof.
  intros Hnd Hty Hw. induction Hnd as [|k keys Hk Hnd IH]; [intros []|].
  apply Forall_cons in Hty as [Hkt Hty]. cbn.
  assert (Hnone : forall keys', Forall ward_typed keys' -> ~ In w keys' ->
            foldr (fun k acc => (if group_eqb w k then x else 0) + acc) 0 keys' = 0).
  { induction 1 as [|k' keys' Hk' _ IH']; [reflexivity|]. intros Hnot. cbn.
    destruct (group_eqb w k') eqn:E.
    - apply group_eqb_typed in E; [|done|done]. subst. exfalso. apply Hnot. by left.
    - rewrite IH'; [lia|]. intros ?. apply Hnot. by right. }
  intros [-> | Hin].
  - rewrite (proj2 (group_eqb_typed w w Hw Hw) eq_refl).
    rewrite Hnone; [lia | done |]. by rewrite <- list_elem_of_In.
  - destruct (group_eqb w k) eqn:E.
    + apply group_eqb_typed in E; [|done|done]. subst.
      exfalso. apply Hk. by apply list_elem_of_In.
    + rewrite IH by done. lia.
Qed.

(** Summing a quantity group by group gives its sum over the table. *)
Lemma sum_over_groups (f : Venue -> Z) (rows : list Venue) (keys : list value) :
  NoDup keys -> Forall ward_typed keys ->
  Forall (fun v => ward_typed (getattr v "search_ward")
                   /\ In (getattr v "search_ward") keys) rows ->
  foldr (fun k acc => sum_over f (ward_group rows k) + acc) 0 keys
  = sum_over f rows.
Proof.
  intros Hnd Hty. induction 1 as [|v rows [Hv Hin] _ IH].
  - cbn. induction keys as [|k keys IHk]; [reflexivity|].
    apply NoDup_cons in Hnd as [_ Hnd]. apply Forall_cons in Hty as [_ Hty].
    cbn. rewrite IHk by done. reflexivity.
  - change (sum_over f (v :: rows)) with (f v + sum_over f rows).
    rewrite <- IH.
    rewrite <- (matched_once (f v) (getattr v "search_ward") keys Hnd Hty Hv Hin)
      at 1.
    clear. induction keys as [|k keys IHk]; [reflexivity|].
    cbn [foldr]. rewrite IHk, sum_over_ward_group. lia.
Qed.

Lemma column_sum_grouped (f : Venue -> Z) (g : WardStatistics -> Z)
      (rows : list Venue) (keys : list value) :
  (forall k, g (ward_statistics_row rows k) = sum_over f (ward_group rows k)) ->
  column_sum g (map (ward_statistics_row rows) keys)
  = foldr (fun k acc => sum_over f (ward_group rows k) + acc) 0 keys.
Proof.
  intros Hg. unfold column_sum. induction keys as [|k keys IH]; [reflexivity|].
  cbn [map foldr]. by rewrite Hg, <- IH.
Qed.

Lemma column_sum_Permutation (g : WardStatistics -> Z) (l l' : list WardStatistics) :
  Permutation l l' -> column_sum g l = column_sum g l'.
Proof. unfold column_sum. induction 1; cbn [foldr] in *; lia. Qed.

Lemma query_count_sum_over (c : Venue -> option bool) (rows : list Venue) :
  query_count (query_filter c rows)
  = sum_over (fun v => if sql_true (c v) then 1 else 0) rows.
Proof.
  unfold query_count, query_filter, sum_over.
  induction rows as [|v rows IH]; [reflexivity|].
  cbn [List.filter foldr]. destruct (sql_true (c v)); cbn [length]; lia.
Qed.

Lemma count_id_well_keyed (rows : list Venue) :
  well_keyed rows -> count_column "id" rows = Z.of_nat (length rows).
Proof.
  intros (ids & Hids & _). unfold count_column, primary_keys in *.
  revert ids Hids. induction rows as [|v rows IH]; intros ids Hids; [reflexivity|].
  destruct ids as [|i ids]; [discriminate|]. cbn in Hids. injection Hids as Hi Hids.
  cbn [sum_over foldr]. rewrite Hi. fold (sum_over
    (fun v => match getattr v "id" with VNone => 0 | _ => 1 end) rows).
  rewrite (IH ids Hids). cbn [length]. lia.
Qed.

Lemma insert_by_total_Permutation (r : WardStatistics) (l : list WardStatistics) :
  Permutation (insert_by_total r l) (r :: l).
Proof.
  induction l as [|r' l IH]; cbn; [reflexivity|].
  destruct (ws_total r' <? ws_total r); [reflexivity|].
  rewrite IH. apply perm_swap.
Qed.

Lemma order_by_total_desc_Permutation (l : list WardStatistics) :
  Permutation (order_by_total_desc l) l.
Proof.
  induction l as [|r l IH]; cbn; [reflexivity|].
  rewrite insert_by_total_Permutation. by constructor.
Qed.

(** X17.  The rows of the ward statistics add up to the global statistics.
    On a well-keyed table whose wards are strings or NULL, and whatever
    order the database gives to wards of equal count, the [total] column
    sums to the total of [get_statistics], and the [visited], [interested]
    and [not_interested] columns sum to the corresponding counts. *)
Theorem get_ward_statistics_sums
        (order_by : list WardStatistics -> list WardStatistics) (db : Database) :
  (forall l, Permutation (order_by l) l) ->
  well_keyed (venues db) ->
  Forall (fun v => ward_typed (getattr v "search_ward")) (venues db) ->
  exists st,
    get_statistics db = Ok st
    /\ column_sum ws_total (get_ward_statistics order_by db) = total st
    /\ column_sum ws_visited (get_ward_statistics order_by db) = visited st
    /\ column_sum ws_interested (get_ward_statistics order_by db) = interested st
    /\ column_sum ws_not_interested (get_ward_statistics order_by db)
       = not_interested st.
Proof.
  intros Hperm Hkeys Hwards.
  destruct (get_statistics_Ok db) as (st & Hst & Ht & Hv & _ & Hi & Hni).
  exists st. split; [exact Hst|].
  unfold get_ward_statistics.
  rewrite !(column_sum_Permutation _ _ _ (Hperm _)). unfold grouped_by_ward.
  set (keys := group_keys (map (fun v => getattr v "search_ward") (venues db))).
  assert (Htyped : Forall ward_typed (map (fun v => getattr v "search_ward") (venues db)))
    by by apply Forall_map.
  destruct (group_keys_spec _ Htyped) as [Hnd Hin]. fold keys in Hnd, Hin.
  assert (Hkt : Forall ward_typed keys).
  { apply Forall_forall. intros k Hk. apply list_elem_of_In, Hin in Hk.
    rewrite Forall_forall in Htyped. by apply Htyped, list_elem_of_In. }
  assert (Hrows : Forall (fun v => ward_typed (getattr v "search_ward")
                                   /\ In (getattr v "search_ward") keys) (venues db)).
  { rewrite Forall_forall in Hwards. apply Forall_forall. intros v Hv'.
    split; [by apply Hwards|]. apply Hin.
    apply (in_map (fun v => getattr v "search_ward")). by apply list_elem_of_In. }
  rewrite Ht, Hv, Hi, Hni, !query_count_sum_over.
  refine (conj _ (conj _ (conj _ _))).
  - rewrite (column_sum_grouped
               (fun v => match getattr v "id" with VNone => 0 | _ => 1 end))
      by reflexivity.
    rewrite sum_over_groups by done. fold (count_column "id" (venues db)).
    by rewrite count_id_well_keyed.
  - rewrite (column_sum_grouped
               (fun v => if sql_true (column_eq (getattr v "visited") (VBool true))
                         then 1 else 0)) by reflexivity.
    by rewrite sum_over_groups.
  - rewrite (column_sum_grouped
               (fun v => if sql_true (column_eq (getattr v "interest_status")
                                        (VStr "interested")) then 1 else 0))
      by reflexivity.
    by rewrite sum_over_groups.
  - rewrite (column_sum_grouped
               (fun v => if sql_true (column_eq (getattr v "interest_status")
                                        (VStr "not_interested")) then 1 else 0))
      by reflexivity.
    by rewrite sum_over_groups.
Qed.

Lemma ward_typed_surveyed_db :
  Forall (fun v => ward_typed (getattr v "search_ward")) (venues surveyed_db).
Proof.
  unfold surveyed_db. cbn [venues].
  repeat (constructor; [right; eexists; reflexivity|]). constructor.
Defined.

Lemma get_ward_statistics_sums_witness :
  exists st,
    get_statistics surveyed_db = Ok st
    /\ column_sum ws_total (get_ward_statistics order_by_total_desc surveyed_db)
       = total st
    /\ column_sum ws_visited (get_ward_statistics order_by_total_desc surveyed_db)
       = visited st
    /\ column_sum ws_interested (get_ward_statistics order_by_total_desc surveyed_db)
       = interested st
    /\ column_sum ws_not_interested
         (get_ward_statistics order_by_total_desc surveyed_db)
       = not_interested st.
Proof.
  apply (get_ward_statistics_sums order_by_total_desc surveyed_db).
  - exact order_by_total_desc_Permutation.
  - exact well_keyed_surveyed_db.
  - exact ward_typed_surveyed_db.
Defined.

Lemma sum_over_le (f h : Venue -> Z) (group : list Venue) :
  (forall v, In v group -> f v <= h v) -> sum_over f group <= sum_over h group.
Proof.
  unfold sum_over. induction group as [|v group IH]; intros Hle; cbn [foldr]; [lia|].
  pose proof (Hle v (or_introl eq_refl)).
  assert (foldr (fun v acc => f v + acc) 0 group
          <= foldr (fun v acc => h v + acc) 0 group)
    by (apply IH; intros u Hu; apply Hle; by right).
  lia.
Qed.

Lemma sum_over_plus (f h : Venue -> Z) (group : list Venue) :
  sum_over (fun v => f v + h v) group = sum_over f group + sum_over h group.
Proof.
  unfold sum_over. induction group as [|v group IH]; cbn [foldr]; lia.
Qed.

Lemma sum_over_nonneg (f : Venue -> Z) (group : list Venue) :
  (forall v, 0 <= f v) -> 0 <= sum_over f group.
Proof.
  intros Hf. unfold sum_over. induction group as [|v group IH]; cbn [foldr]; [lia|].
  pose proof (Hf v). lia.
Qed.

Lemma sum_over_pos (f : Venue -> Z) (group : list Venue) (v : Venue) :
  (forall v, 0 <= f v) -> In v group -> f v <= sum_over f group.
Proof.
  intros Hf. unfold sum_over. induction group as [|u group IH]; [intros []|].
  cbn [foldr]. pose proof (sum_over_nonneg f group Hf) as Hn. unfold sum_over in Hn.
  intros [-> | Hin]; [lia|]. specialize (IH Hin). pose proof (Hf u). lia.
Qed.

(** The counts of the group of a ward that occurs in the table. *)
Lemma ward_statistics_row_consistent (rows : list Venue) (v : Venue) :
  Forall (fun u => exists i, getattr u "id" = VInt i) rows ->
  ward_typed (getattr v "search_ward") -> In v rows ->
  ward_row_consistent (ward_statistics_row rows (getattr v "search_ward")).
Proof.
  intros Hids Hty Hin. unfold ward_row_consistent, ward_statistics_row.
  cbn [ws_total ws_visited ws_interested ws_not_interested].
  set (g := ward_group rows (getattr v "search_ward")).
  set (one := fun u : Venue => match getattr u "id" with VNone => 0 | _ => 1 end).
  set (vis := fun u : Venue =>
                if sql_true (column_eq (getattr u "visited") (VBool true))
                then 1 else 0).
  set (int := fun u : Venue =>
                if sql_true (column_eq (getattr u "interest_status")
                               (VStr "interested")) then 1 else 0).
  set (nint := fun u : Venue =>
                 if sql_true (column_eq (getattr u "interest_status")
                                (VStr "not_interested")) then 1 else 0).
  assert (Hg : forall u, In u g -> one u = 1).
  { intros u Hu. apply filter_In in Hu as [Hu _].
    rewrite Forall_forall in Hids. destruct (Hids u) as [i Hi];
      [by apply list_elem_of_In|]. unfold one. by rewrite Hi. }
  assert (Hvg : In v g).
  { apply filter_In. split; [exact Hin|]. by apply group_eqb_typed. }
  assert (Hone : forall u, 0 <= one u) by (intros u; unfold one; destruct (getattr u "id"); lia).
  assert (Hvis : forall u, 0 <= vis u) by (intros u; unfold vis; destruct (sql_true _); lia).
  assert (Hint : forall u, 0 <= int u) by (intros u; unfold int; destruct (sql_true _); lia).
  assert (Hnint : forall u, 0 <= nint u)
    by (intros u; unfold nint; destruct (sql_true _); lia).
  unfold count_column, sum_case.
  change (sum_over (fun v0 => match getattr v0 "id" with VNone => 0 | _ => 1 end) g)
    with (sum_over one g).
  change (sum_over (fun v0 => if sql_true (column_eq (getattr v0 "visited") _)
                              then 1 else 0) g) with (sum_over vis g).
  change (sum_over (fun v0 => if sql_true (column_eq (getattr v0 "interest_status")
                                             (VStr "interested")) then 1 else 0) g)
    with (sum_over int g).
  change (sum_over (fun v0 => if sql_true (column_eq (getattr v0 "interest_status")
                                             (VStr "not_interested")) then 1 else 0) g)
    with (sum_over nint g).
  pose proof (sum_over_pos one g v Hone Hvg) as H1. rewrite (Hg v Hvg) in H1.
  pose proof (sum_over_nonneg vis g Hvis).
  pose proof (sum_over_nonneg int g Hint).
  pose proof (sum_over_nonneg nint g Hnint).
  assert (sum_over vis g <= sum_over one g).
  { apply sum_over_le. intros u Hu. rewrite (Hg u Hu). unfold vis.
    destruct (sql_true _); lia. }
  assert (sum_over (fun u => int u + nint u) g <= sum_over one g).
  { apply sum_over_le. intros u Hu. rewrite (Hg u Hu). unfold int, nint.
    destruct (column_eq (getattr u "interest_status") (VStr "interested"))
      as [[|]|] eqn:E1;
      destruct (column_eq (getattr u "interest_status") (VStr "not_interested"))
        as [[|]|] eqn:E2; cbn; try lia.
    apply column_eq_str in E1. apply column_eq_str in E2. congruence. }
  rewrite sum_over_plus in *. lia.
Qed.

(** X18.  The ward statistics have one row per distinct ward of the table,
    the NULL ward included, and nothing else: no ward occurs twice, every
    venue's ward has its row, every row counts at least one venue, and in
    each row [visited] and [interested + not_interested] do not exceed
    [total].  An empty table gives no row. *)
Theorem get_ward_statistics_rows
        (order_by : list WardStatistics -> list WardStatistics) (db : Database) :
  (forall l, Permutation (order_by l) l) ->
  well_keyed (venues db) ->
  Forall (fun v => ward_typed (getattr v "search_ward")) (venues db) ->
  NoDup (map ws_ward (get_ward_statistics order_by db))
  /\ (forall v, In v (venues db) ->
                In (getattr v "search_ward")
                   (map ws_ward (get_ward_statistics order_by db)))
  /\ Forall ward_row_consistent (get_ward_statistics order_by db)
  /\ (venues db = [] -> get_ward_statistics order_by db = []).
Proof.
  intros Hperm Hkeys Hwards. unfold get_ward_statistics.
  set (keys := group_keys (map (fun v => getattr v "search_ward") (venues db))).
  assert (Htyped : Forall ward_typed (map (fun v => getattr v "search_ward") (venues db)))
    by by apply Forall_map.
  destruct (group_keys_spec _ Htyped) as [Hnd Hin]. fold keys in Hnd, Hin.
  assert (Hwardcol : map ws_ward (grouped_by_ward db) = keys).
  { unfold grouped_by_ward. fold keys. rewrite map_map. cbn. apply map_id. }
  assert (Hpm : Permutation (map ws_ward (order_by (grouped_by_ward db))) keys).
  { rewrite <- Hwardcol. apply Permutation_map, Hperm. }
  assert (Hint : Forall (fun u => exists i, getattr u "id" = VInt i) (venues db)).
  { destruct Hkeys as (ids & Hids & _). apply Forall_forall. intros v Hv.
    apply list_elem_of_In in Hv.
    apply (in_map (fun v => getattr v "id")) in Hv.
    unfold primary_keys in Hids. rewrite Hids in Hv.
    apply in_map_iff in Hv as (i & Hi & _). eauto. }
  refine (conj _ (conj _ (conj _ _))).
  - by rewrite Hpm.
  - intros v Hv. eapply Permutation_in; [symmetry; exact Hpm|].
    apply Hin. by apply (in_map (fun v => getattr v "search_ward")).
  - apply Forall_forall. intros r Hr. apply list_elem_of_In in Hr.
    eapply Permutation_in in Hr; [|apply Hperm].
    unfold grouped_by_ward in Hr. fold keys in Hr.
    apply in_map_iff in Hr as (k & <- & Hk).
    apply Hin, in_map_iff in Hk as (v & <- & Hv).
    apply ward_statistics_row_consistent; [exact Hint | | exact Hv].
    rewrite Forall_forall in Hwards. by apply Hwards, list_elem_of_In.
  - intros Hempty. unfold grouped_by_ward. rewrite Hempty. cbn.
    apply Permutation_nil. symmetry. apply Hperm.
Qed.

Lemma get_ward_statistics_rows_witness :
  NoDup (map ws_ward (get_ward_statistics order_by_total_desc surveyed_db))
  /\ (forall v, In v (venues surveyed_db) ->
                In (getattr v "search_ward")
                   (map ws_ward (get_ward_statistics order_by_total_desc surveyed_db)))
  /\ Forall ward_row_consistent (get_ward_statistics order_by_total_desc surveyed_db)
  /\ (venues surveyed_db = [] ->
      get_ward_statistics order_by_total_desc surveyed_db = []).
Proof.
  apply (get_ward_statistics_rows order_by_total_desc surveyed_db).
  - exact order_by_total_desc_Permutation.
  - exact well_keyed_surveyed_db.
  - exact ward_typed_surveyed_db.
Defined.

(* ====================================================================== *)
(** * More on calculate_distance *)
(* ====================================================================== *)

Lemma Geo_all_swap (a b c d : option R) :
  Geo.all [a; b; c; d] = Geo.all [c; d; a; b].
Proof.
  unfold Geo.all. cbn [forallb].
  destruct (Geo.truthy a), (Geo.truthy b), (Geo.truthy c), (Geo.truthy d);
    reflexivity.
Qed.

Lemma sin_half_diff_sqr (x y : R) :
  (sin ((y - x) / 2) ^ 2 = sin ((x - y) / 2) ^ 2)%R.
Proof.
  replace ((y - x) / 2)%R with (- ((x - y) / 2))%R by lra.
  rewrite sin_neg. ring.
Qed.

(** X19.  The distance is symmetric: the distance from a point to another
    equals the distance back, [None] included. *)
Theorem calculate_distance_symmetric (lat1 lon1 lat2 lon2 : option R) :
  Geo.calculate_distance lat1 lon1 lat2 lon2
  = Geo.calculate_distance lat2 lon2 lat1 lon1.
Proof.
  unfold Geo.calculate_distance. rewrite (Geo_all_swap lat2 lon2 lat1 lon1).
  destruct (negb (Geo.all [lat1; lon1; lat2; lon2])); [reflexivity|].
  destruct lat1 as [a|], lon1 as [b|], lat2 as [c|], lon2 as [d|]; try reflexivity.
  cbv zeta.
  rewrite (sin_half_diff_sqr (Geo.radians a) (Geo.radians c)).
  rewrite (sin_half_diff_sqr (Geo.radians b) (Geo.radians d)).
  rewrite (Rmult_comm (cos (Geo.radians a)) (cos (Geo.radians c))).
  reflexivity.
Qed.

Lemma asin_nonneg (y : R) : (0 <= y)%R -> (0 <= asin y)%R.
Proof.
  intros Hy. unfold asin. pose proof PI_RGT_0.
  destruct (Rle_dec y (-1)); [lra|]. destruct (Rle_dec 1 y); [lra|].
  assert (Hs : (0 < sqrt (1 - y²))%R).
  { apply sqrt_lt_R0. unfold Rsqr. nra. }
  assert (Harg : (0 <= y / sqrt (1 - y²))%R).
  { unfold Rdiv. apply Rmult_le_pos; [exact Hy|].
    left. by apply Rinv_0_lt_compat. }
  destruct Harg as [Hpos | <-]; [|rewrite atan_0; lra].
  pose proof (atan_increasing _ _ Hpos) as Hinc. rewrite atan_0 in Hinc. lra.
Qed.

Lemma Geo_round2_nonneg (x : R) : (0 <= x)%R -> (0 <= Geo.round2 x)%R.
Proof.
  intros Hx. unfold Geo.round2, Geo.round_half_even.
  assert (Hn : (0 <= Int_part (x * 100))%Z).
  { destruct (base_Int_part (x * 100)) as [_ Hlow].
    assert (H : (-1 < IZR (Int_part (x * 100)))%R) by lra.
    apply lt_IZR in H. lia. }
  assert (H0 : (0 <= IZR (Int_part (x * 100)))%R) by (apply IZR_le; exact Hn).
  assert (H1 : (0 <= IZR (Int_part (x * 100) + 1))%R) by (apply IZR_le; lia).
  destruct (Rlt_dec _ _); [lra|]. destruct (Rlt_dec _ _); [lra|].
  destruct (Z.even _); lra.
Qed.

(** X20.  A distance is never negative, and it is the rounding to two
    decimals of a length between 0 and half the circumference of the
    sphere of radius 3959 miles. *)
Theorem calculate_distance_range (lat1 lon1 lat2 lon2 : option R) :
  match Geo.calculate_distance lat1 lon1 lat2 lon2 with
  | Some d =>
      (0 <= d)%R
      /\ exists x, d = Geo.round2 x /\ (0 <= x <= 3959 * PI)%R
  | None => True
  end.
Proof.
  unfold Geo.calculate_distance.
  destruct (negb (Geo.all [lat1; lon1; lat2; lon2])); [exact I|].
  destruct lat1 as [a|], lon1 as [b|], lat2 as [c|], lon2 as [d|]; try exact I.
  cbv zeta.
  set (h := (sin ((Geo.radians c - Geo.radians a) / 2) ^ 2
             + cos (Geo.radians a) * cos (Geo.radians c)
               * sin ((Geo.radians d - Geo.radians b) / 2) ^ 2)%R).
  pose proof (asin_nonneg (sqrt h) (sqrt_pos h)) as Hlow.
  pose proof (asin_bound (sqrt h)) as [_ Hup].
  assert (Hx : (0 <= 3959 * (2 * asin (sqrt h)) <= 3959 * PI)%R) by lra.
  split; [apply Geo_round2_nonneg; lra|].
  eexists. split; [reflexivity | exact Hx].
Qed.

(* ====================================================================== *)
(** * More on the export *)
(* ====================================================================== *)




Section RoundTrip.
Variable utcnow : nat -> datetime.
Variable parse_float : string -> option float.
Variable parse_int : string -> option Z.

End RoundTrip.


(* ====================================================================== *)
(** * The selection of the Export page *)
(* ====================================================================== *)

Lemma filter_venues_operational (db : Database) (kw : filter_kwargs) :
  kw_business_status kw = None ->
  Forall (fun v => getattr v "business_status" = VStr "OPERATIONAL")
    (filter_venues db kw).
Proof.
  intros Hbs. apply Forall_forall. intros v Hv. apply list_elem_of_In in Hv.
  unfold filter_venues in Hv. rewrite Hbs in Hv. cbn [kwarg] in Hv.
  apply filter_venues_body_criteria in Hv as (_ & Hop & _).
  by apply (Hop "OPERATIONAL"%string).
Qed.

Lemma filter_venues_interest (db : Database) (interest : string) :
  interest <> ""%string ->
  Forall (fun v => getattr v "interest_status" = VStr interest)
    (filter_venues db
       (mk_filter_kwargs None None None None None None (Some (Some interest)) None)).
Proof.
  intros Hne. apply Forall_forall. intros v Hv. apply list_elem_of_In in Hv.
  unfold filter_venues in Hv. cbn [kwarg kw_ward kw_postcode_sector kw_amenity
    kw_cuisine kw_min_rating kw_visited kw_interest_status kw_business_status] in Hv.
  apply filter_venues_body_criteria in Hv as (_ & _ & _ & _ & _ & _ & _ & _ & Hi).
  by apply Hi.
Qed.

Lemma filter_venues_visited (db : Database) (b : bool) :
  Forall (fun v => getattr v "visited" = VBool b)
    (filter_venues db
       (mk_filter_kwargs None None None None None (Some (Some b)) None None)).
Proof.
  apply Forall_forall. intros v Hv. apply list_elem_of_In in Hv.
  unfold filter_venues in Hv. cbn [kwarg kw_ward kw_postcode_sector kw_amenity
    kw_cuisine kw_min_rating kw_visited kw_interest_status kw_business_status] in Hv.
  apply filter_venues_body_criteria in Hv as (_ & _ & _ & _ & _ & _ & _ & Hvis & _).
  by apply Hvis.
Qed.

Lemma export_selection_sublist (db : Database)
      (export_type custom_ward custom_amenity : string) :
  export_selection db export_type custom_ward custom_amenity
  `sublist_of` get_all_venues db.
Proof.
  unfold export_selection.
  repeat (destruct (String.eqb export_type _);
          [first [reflexivity
                 | unfold filter_venues, filter_venues_body, get_all_venues;
                   repeat (etransitivity; [apply filter_if_sublist|]); reflexivity]
          |]).
  unfold filter_venues, filter_venues_body, get_all_venues.
  repeat (etransitivity; [apply filter_if_sublist|]). reflexivity.
Qed.

(** X23.  Only "All Venues" exports closed venues.  For every other export
    type the venues selected are all OPERATIONAL, and the selection is a
    sublist of the table.  "Hot Leads" holds interested venues only, "Not
    Interested" not-interested ones only, "Not Visited" venues with
    [visited] false (red pins) only and "Visited (All)" venues with
    [visited] true only. *)
Theorem export_selection_operational (db : Database)
        (export_type custom_ward custom_amenity : string) :
  export_type <> "All Venues"%string ->
  Forall (fun v => getattr v "business_status" = VStr "OPERATIONAL")
    (export_selection db export_type custom_ward custom_amenity)
  /\ export_selection db export_type custom_ward custom_amenity
     `sublist_of` export_selection db "All Venues" custom_ward custom_amenity
  /\ Forall (fun v => getattr v "interest_status" = VStr "interested")
       (export_selection db "Hot Leads (Interested Only)" custom_ward custom_amenity)
  /\ Forall (fun v => getattr v "interest_status" = VStr "not_interested")
       (export_selection db "Not Interested" custom_ward custom_amenity)
  /\ Forall (fun v => getattr v "visited" = VBool false
                      /\ get_pin_color v = "red"%string)
       (export_selection db "Not Visited" custom_ward custom_amenity)
  /\ Forall (fun v => getattr v "visited" = VBool true
                      /\ get_pin_color v <> "red"%string)
       (export_selection db "Visited (All)" custom_ward custom_amenity).
Proof.
  intros Htype. refine (conj _ (conj _ (conj _ (conj _ (conj _ _))))).
  - unfold export_selection.
    destruct (String.eqb_spec export_type "All Venues"); [contradiction|].
    repeat (destruct (String.eqb export_type _);
            [by apply filter_venues_operational|]).
    by apply filter_venues_operational.
  - apply export_selection_sublist.
  - apply filter_venues_interest. discriminate.
  - apply filter_venues_interest. discriminate.
  - eapply Forall_impl; [apply (filter_venues_visited db false)|].
    intros v Hv. split; [exact Hv|]. unfold get_pin_color. by rewrite Hv.
  - eapply Forall_impl; [apply (filter_venues_visited db true)|].
    intros v Hv. split; [exact Hv|]. unfold get_pin_color. rewrite Hv. cbn.
    repeat (destruct (py_eq_str _ _)); discriminate.
Qed.

Lemma export_selection_operational_witness :
  Forall (fun v => getattr v "business_status" = VStr "OPERATIONAL")
    (export_selection surveyed_db "Visited (All)" "All" "All")
  /\ export_selection surveyed_db "Visited (All)" "All" "All"
     `sublist_of` export_selection surveyed_db "All Venues" "All" "All"
  /\ Forall (fun v => getattr v "interest_status" = VStr "interested")
       (export_selection surveyed_db "Hot Leads (Interested Only)" "All" "All")
  /\ Forall (fun v => getattr v "interest_status" = VStr "not_interested")
       (export_selection surveyed_db "Not Interested" "All" "All")
  /\ Forall (fun v => getattr v "visited" = VBool false
                      /\ get_pin_color v = "red"%string)
       (export_selection surveyed_db "Not Visited" "All" "All")
  /\ Forall (fun v => getattr v "visited" = VBool true
                      /\ get_pin_color v <> "red"%string)
       (export_selection surveyed_db "Visited (All)" "All" "All").
Proof.
  apply (export_selection_operational surveyed_db "Visited (All)" "All" "All").
  discriminate.
Defined.

(* ====================================================================== *)
(** * The Map View page *)
(* ====================================================================== *)

Lemma count_if_all (p : Venue -> bool) (l : list Venue) :
  Forall (fun v => p v = true) l -> count_if p l = Z.of_nat (length l).
Proof.
  unfold count_if. induction 1 as [|v l Hv _ IH]; [reflexivity|].
  cbn [List.filter]. rewrite Hv. cbn [length]. lia.
Qed.

Lemma count_if_none (p : Venue -> bool) (l : list Venue) :
  Forall (fun v => p v = false) l -> count_if p l = 0.
Proof.
  unfold count_if. induction 1 as [|v l Hv _ IH]; [reflexivity|].
  cbn [List.filter]. rewrite Hv. exact IH.
Qed.

(** What the status filter of the map guarantees of the venues shown. *)
Lemma map_filtered_venues_status (db : Database)
      (filter_ward filter_postcode filter_amenity filter_cuisine : string)
      (filter_rating : float) (filter_status : string) (show_closed : bool)
      (v : Venue) :
  In v (map_filtered_venues db filter_ward filter_postcode filter_amenity
          filter_cuisine filter_rating filter_status show_closed) ->
  (forall b, (status_filters filter_status).1 = Some b ->
             getattr v "visited" = VBool b)
  /\ (forall s, (status_filters filter_status).2 = Some s -> s <> ""%string ->
                getattr v "interest_status" = VStr s)
  /\ (show_closed = false -> getattr v "business_status" = VStr "OPERATIONAL").
Proof.
  unfold map_filtered_venues, filter_venues.
  cbn [kwarg kw_ward kw_postcode_sector kw_amenity kw_cuisine kw_min_rating
       kw_visited kw_interest_status kw_business_status].
  intros Hin.
  apply filter_venues_body_criteria in Hin
    as (_ & Hop & _ & _ & _ & _ & _ & Hvis & Hint).
  split; [exact Hvis|]. split; [exact Hint|].
  intros ->. by apply (Hop "OPERATIONAL"%string).
Qed.

(** X24.  The counters under the map agree with the status filter: with
    "Not Visited" no venue shown is visited, with "Visited" every venue
    shown is, with "Interested" every venue shown is interested and with
    "Not Interested" none is; the visited and not-visited counters always
    add up to the number of venues shown; unless "Show closed venues" is
    ticked every venue shown is OPERATIONAL; and with every filter at "All",
    the rating at 0 and closed venues shown, the map shows the whole
    table. *)
Theorem map_page_counters (db : Database)
        (filter_ward filter_postcode filter_amenity filter_cuisine : string)
        (filter_rating : float) (filter_status : string) (show_closed : bool) :
  let shown status :=
    map_filtered_venues db filter_ward filter_postcode filter_amenity
      filter_cuisine filter_rating status show_closed in
  visited_count (shown filter_status) + not_visited_count (shown filter_status)
  = Z.of_nat (length (shown filter_status))
  /\ 0 <= visited_count (shown filter_status)
     <= Z.of_nat (length (shown filter_status))
  /\ visited_count (shown "Not Visited"%string) = 0
  /\ not_visited_count (shown "Visited"%string) = 0
  /\ interested_count (shown "Interested"%string)
     = Z.of_nat (length (shown "Interested"%string))
  /\ interested_count (shown "Not Interested"%string) = 0
  /\ Forall (fun v => getattr v "business_status" = VStr "OPERATIONAL")
       (map_filtered_venues db filter_ward filter_postcode filter_amenity
          filter_cuisine filter_rating filter_status false)
  /\ map_filtered_venues db "All" "All" "All" "All" 0%float "All" true
     = get_all_venues db.
Proof.
  intros shown.
  assert (Hstatus : forall status (P : Venue -> Prop),
             (forall v,
                 (forall b, (status_filters status).1 = Some b ->
                            getattr v "visited" = VBool b) ->
                 (forall s, (status_filters status).2 = Some s -> s <> ""%string ->
                            getattr v "interest_status" = VStr s) ->
                 P v) ->
             Forall P (shown status)).
  { intros status P HP. apply Forall_forall. intros v Hv.
    apply list_elem_of_In, map_filtered_venues_status in Hv as (Hvis & Hint & _).
    by apply HP. }
  refine (conj _ (conj _ (conj _ (conj _ (conj _ (conj _ (conj _ _))))))).
  - unfold not_visited_count. lia.
  - unfold visited_count, count_if.
    pose proof (filter_length_le (fun v => truthy (getattr v "visited"))
                  (shown filter_status)). lia.
  - apply count_if_none, Hstatus. intros v Hvis _.
    by rewrite (Hvis false eq_refl).
  - unfold not_visited_count, visited_count. rewrite count_if_all; [lia|].
    apply Hstatus. intros v Hvis _. by rewrite (Hvis true eq_refl).
  - apply count_if_all, Hstatus. intros v _ Hint.
    by rewrite (Hint "interested"%string eq_refl ltac:(discriminate)).
  - apply count_if_none, Hstatus. intros v _ Hint.
    by rewrite (Hint "not_interested"%string eq_refl ltac:(discriminate)).
  - apply Forall_forall. intros v Hv.
    apply list_elem_of_In, map_filtered_venues_status in Hv as (_ & _ & Hop).
    by apply Hop.
  - reflexivity.
Qed.
